(** * Store monitoring: the uptime/downtime estimation engine

    A shallow embedding of the engine of [main.py] (and of its twin
    [main_simple.py], whose engine functions are the same text):
    [is_store_open], [calculate_uptime_downtime] and [generate_report],
    together with the parts of the Python library they rely on
    ([datetime] arithmetic, [strptime] with the format [%H:%M]).

    Modelling choices.
    - A naive [datetime] is the number of microseconds elapsed since
      0001-01-01T00:00:00 in the proleptic Gregorian calendar, as an
      unbounded [Z]; the representable range of [datetime] (years 1 to
      9999) is not modelled.
    - Python floats are exact rationals ([Q]); results are compared
      with [==].  [round(x, 2)] is rounding to the nearest hundredth,
      ties to even.
    - The database session is a record of three tables in row order,
      each with a flag telling whether its provider answers queries; a
      query on a provider that is down raises.
    - The IANA time zone database is a parameter of the development. *)

From Stdlib Require Import ZArith QArith Qround Qabs List Sorted String Ascii Bool Lia Lqa.
From Equations Require Import Equations.
Import ListNotations.

Open Scope string_scope.
Open Scope Z_scope.

(** ** Exceptions and results *)

Inductive exn : Type :=
| ValueError            (* strptime: data does not match the format *)
| TypeError             (* arithmetic on None *)
| IndexError            (* list index out of range *)
| UnknownTimeZoneError  (* pytz.timezone on an unknown name *)
| OperationalError.     (* a database query failed *)

Inductive result (A : Type) : Type :=
| Ok (a : A)
| Raise (e : exn).

Arguments Ok {A} a.
Arguments Raise {A} e.

Definition bind {A B : Type} (r : result A) (k : A -> result B) : result B :=
  match r with
  | Ok a => k a
  | Raise e => Raise e
  end.

Notation "x <- e ;; k" := (bind e (fun x => k))
  (at level 100, e at next level, right associativity).

(** [try: ... except Exception: return d] *)
Definition try_except {A : Type} (r : result A) (d : A) : A :=
  match r with
  | Ok a => a
  | Raise _ => d
  end.

(** ** Dates and times *)

Definition datetime := Z.
Definition date := Z.      (* proleptic Gregorian ordinal, [date.toordinal()] *)

Definition us_per_second : Z := 1000000.
Definition us_per_minute : Z := 60 * us_per_second.
Definition us_per_hour : Z := 60 * us_per_minute.
Definition us_per_day : Z := 24 * us_per_hour.

Record time : Type := mk_time {
  hour : Z;
  minute : Z;
  second : Z;
  microsecond : Z
}.

(** [datetime.date()] *)
Definition date_of (t : datetime) : date := t / us_per_day + 1.

(** [date.weekday()]: 0 is Monday, 6 is Sunday *)
Definition weekday (d : date) : Z := (d + 6) mod 7.

(** [datetime.time()] *)
Definition time_of (t : datetime) : time :=
  let u := t mod us_per_day in
  mk_time (u / us_per_hour)
          ((u / us_per_minute) mod 60)
          ((u / us_per_second) mod 60)
          (u mod us_per_second).

(** Comparison of [time] objects: lexicographic on
    (hour, minute, second, microsecond). *)
Definition lex (c1 c2 : comparison) : comparison :=
  match c1 with
  | Eq => c2
  | _ => c1
  end.

Definition time_cmp (a b : time) : comparison :=
  lex (hour a ?= hour b)
   (lex (minute a ?= minute b)
     (lex (second a ?= second b) (microsecond a ?= microsecond b))).

(** [a > b], [a <= b] and [a >= b] on [time] objects *)
Definition time_gtb (a b : time) : bool :=
  match time_cmp a b with Gt => true | _ => false end.
Definition time_leb (a b : time) : bool :=
  match time_cmp a b with Gt => false | _ => true end.
Definition time_geb (a b : time) : bool :=
  match time_cmp a b with Lt => false | _ => true end.

(** [timedelta(hours=1)], [timedelta(days=1)], [timedelta(weeks=1)] *)
Definition timedelta_hours (n : Z) : Z := n * us_per_hour.
Definition timedelta_days (n : Z) : Z := n * us_per_day.
Definition timedelta_weeks (n : Z) : Z := n * 7 * us_per_day.

(** [timedelta.total_seconds()] of a difference given in microseconds *)
Definition total_seconds (delta : Z) : Q := inject_Z delta / inject_Z us_per_second.

(** Calendar arithmetic of the [datetime] module, used to write instants
    down as year-month-day. *)
Definition is_leap (y : Z) : bool :=
  (y mod 4 =? 0) && (negb (y mod 100 =? 0) || (y mod 400 =? 0)).

Definition days_before_year (year : Z) : Z :=
  let y := year - 1 in y * 365 + y / 4 - y / 100 + y / 400.

Definition days_before_month (year month : Z) : Z :=
  nth (Z.to_nat month) [0; 0; 31; 59; 90; 120; 151; 181; 212; 243; 273; 304; 334] 0
  + (if (month >? 2) && is_leap year then 1 else 0).

Definition ymd2ord (year month day : Z) : date :=
  days_before_year year + days_before_month year month + day.

Definition mk_datetime (year month day h mi s : Z) : datetime :=
  (ymd2ord year month day - 1) * us_per_day
  + h * us_per_hour + mi * us_per_minute + s * us_per_second.

(** ** [datetime.strptime(s, "%H:%M").time()]

    The format is compiled to the regular expression
    [(?P<H>2[0-3]|[0-1]\d|\d):(?P<M>[0-5]\d|\d)], matched at the start of
    the string; text left over after the match is an error. *)

Definition is_digit (c : ascii) : bool :=
  let n := Z.of_nat (nat_of_ascii c) in (48 <=? n) && (n <=? 57).

Definition digit_val (c : ascii) : Z := Z.of_nat (nat_of_ascii c) - 48.

Definition digit_upto (k : Z) (c : ascii) : bool :=
  is_digit c && (digit_val c <=? k).

Fixpoint chars (s : string) : list ascii :=
  match s with
  | EmptyString => []
  | String c s' => c :: chars s'
  end.

(** [[0-5]\d|\d] *)
Definition match_M (s : list ascii) : option (Z * list ascii) :=
  match s with
  | c :: d :: rest =>
      if digit_upto 5 c && is_digit d then Some (10 * digit_val c + digit_val d, rest)
      else if is_digit c then Some (digit_val c, d :: rest)
      else None
  | c :: rest =>
      if is_digit c then Some (digit_val c, rest) else None
  | [] => None
  end.

(** The three alternatives of the hour group, in the order the regular
    expression tries them. *)
Definition match_H_alternatives (s : list ascii) : list (Z * list ascii) :=
  (match s with
   | c :: d :: rest =>
       if (digit_val c =? 2) && digit_upto 3 d then [(20 + digit_val d, rest)] else []
   | _ => []
   end)
  ++
  (match s with
   | c :: d :: rest =>
       if digit_upto 1 c && is_digit d then [(10 * digit_val c + digit_val d, rest)] else []
   | _ => []
   end)
  ++
  (match s with
   | c :: rest => if is_digit c then [(digit_val c, rest)] else []
   | [] => []
   end).

(** What follows the hour group: a colon, then the minute group. *)
Definition match_colon_M (h : Z) (s : list ascii) : option (Z * Z * list ascii) :=
  match s with
  | c :: rest =>
      if Ascii.eqb c ":" then
        match match_M rest with
        | Some (m, rest') => Some (h, m, rest')
        | None => None
        end
      else None
  | [] => None
  end.

Fixpoint first_match (alts : list (Z * list ascii)) : option (Z * Z * list ascii) :=
  match alts with
  | [] => None
  | (h, rest) :: alts' =>
      match match_colon_M h rest with
      | Some r => Some r
      | None => first_match alts'
      end
  end.

Definition strptime_HM (s : string) : result time :=
  match first_match (match_H_alternatives (chars s)) with
  | None => Raise ValueError
  | Some (h, m, rest) =>
      match rest with
      | [] => Ok (mk_time h m 0 0)
      | _ :: _ => Raise ValueError
      end
  end.

(** ** Database models *)

Module StoreStatus.
Record t : Type := mk {
  store_id : string;
  timestamp_utc : datetime;
  status : string           (* 'active' or 'inactive' *)
}.
End StoreStatus.

Module StoreHours.
Record t : Type := mk {
  store_id : string;
  day_of_week : Z;           (* 0=Monday, 6=Sunday *)
  start_time_local : string; (* HH:MM format *)
  end_time_local : string    (* HH:MM format *)
}.
End StoreHours.

Module StoreTimezone.
Record t : Type := mk {
  store_id : string;
  timezone_str : string
}.
End StoreTimezone.

Record Session : Type := mk_session {
  store_status : list StoreStatus.t;
  store_hours : list StoreHours.t;
  store_timezone : list StoreTimezone.t;
  status_up : bool;
  hours_up : bool;
  timezone_up : bool
}.

(** [db.query(StoreTimezone).filter(store_id == s).first()] *)
Definition query_timezone (db : Session) (s : string) : result (option StoreTimezone.t) :=
  if timezone_up db
  then Ok (find (fun r => String.eqb (StoreTimezone.store_id r) s) (store_timezone db))
  else Raise OperationalError.

(** [db.query(StoreHours).filter(store_id == s, day_of_week == d).first()] *)
Definition query_hours (db : Session) (s : string) (d : Z) : result (option StoreHours.t) :=
  if hours_up db
  then Ok (find (fun r => String.eqb (StoreHours.store_id r) s
                          && (StoreHours.day_of_week r =? d))
                (store_hours db))
  else Raise OperationalError.

(** [order_by(StoreStatus.timestamp_utc)]: a stable sort on the timestamp,
    rows with equal timestamps staying in row order. *)
Fixpoint insert_by_timestamp (r : StoreStatus.t) (l : list StoreStatus.t) : list StoreStatus.t :=
  match l with
  | [] => [r]
  | x :: l' =>
      if StoreStatus.timestamp_utc r <=? StoreStatus.timestamp_utc x
      then r :: x :: l'
      else x :: insert_by_timestamp r l'
  end.

Definition order_by_timestamp (l : list StoreStatus.t) : list StoreStatus.t :=
  fold_right insert_by_timestamp [] l.

(** [db.query(StoreStatus).filter(store_id == s).order_by(timestamp_utc).all()] *)
Definition query_status (db : Session) (s : string) : result (list StoreStatus.t) :=
  if status_up db
  then Ok (order_by_timestamp
             (filter (fun r => String.eqb (StoreStatus.store_id r) s) (store_status db)))
  else Raise OperationalError.

(** [db.query(StoreStatus.store_id).distinct().all()] *)
Fixpoint distinct (l : list string) : list string :=
  match l with
  | [] => []
  | x :: l' => x :: filter (fun y => negb (String.eqb y x)) (distinct l')
  end.

Definition query_store_ids (db : Session) : result (list string) :=
  if status_up db
  then Ok (distinct (map StoreStatus.store_id (store_status db)))
  else Raise OperationalError.

(** [MAX_TIMESTAMP] as the loop of [import_csv_data] in [main_simple.py]
    computes it: the largest timestamp of the status rows, [None] when
    there is no row.  ([main.py] takes the maximum of the column with
    pandas.) *)
Definition max_timestamp (rows : list StoreStatus.t) : option datetime :=
  fold_left
    (fun acc r =>
       match acc with
       | None => Some (StoreStatus.timestamp_utc r)
       | Some m => if StoreStatus.timestamp_utc r >? m
                   then Some (StoreStatus.timestamp_utc r) else Some m
       end)
    rows None.

(** ** The business-minutes accumulator *)

(** The body of the [while] loop of [calculate_uptime_downtime]: the
    minutes added for one calendar date. *)
Definition day_minutes (db : Session) (store_id : string) (current_date : date) : result Z :=
  let day_of_week := weekday current_date in
  hours_record <- query_hours db store_id day_of_week ;;
  match hours_record with
  | Some h =>
      start_time_local <- strptime_HM (StoreHours.start_time_local h) ;;
      end_time_local <- strptime_HM (StoreHours.end_time_local h) ;;
      if time_gtb start_time_local end_time_local
      then Ok (24 * 60 - hour start_time_local * 60 - minute start_time_local
               + hour end_time_local * 60 + minute end_time_local)
      else Ok (hour end_time_local * 60 + minute end_time_local
               - hour start_time_local * 60 - minute start_time_local)
  | None => Ok (24 * 60)
  end.

(** [while current_date <= end_date: ...; current_date += timedelta(days=1)] *)
Equations? business_minutes_while (db : Session) (store_id : string)
  (current_date end_date : date) (total_business_minutes : Z) : result Z
  by wf (Z.to_nat (end_date - current_date + 1)) lt :=
business_minutes_while db store_id current_date end_date total_business_minutes :=
  match Z_le_gt_dec current_date end_date with
  | left _ =>
      match day_minutes db store_id current_date with
      | Ok m =>
          business_minutes_while db store_id (current_date + 1) end_date
                                 (total_business_minutes + m)
      | Raise e => Raise e
      end
  | right _ => Ok total_business_minutes
  end.
Proof. lia. Qed.


(** ** The uptime extrapolator *)

(** [enumerate(l)] *)
Definition enumerate {A : Type} (l : list A) : list (nat * A) :=
  combine (seq 0 (List.length l)) l.

(** [l[i]] *)
Definition getitem {A : Type} (l : list A) (i : nat) : result A :=
  match nth_error l i with
  | Some x => Ok x
  | None => Raise IndexError
  end.

(** One turn of the loop [for i, record in enumerate(period_records)]. *)
Definition uptime_step (period_records : list StoreStatus.t) (current_time : datetime)
  (uptime_minutes : Q) (ir : nat * StoreStatus.t) : result Q :=
  let (i, record) := ir in
  if String.eqb (StoreStatus.status record) "active" then
    next_time <-
      (if Z.of_nat i <? Z.of_nat (List.length period_records) - 1
       then r <- getitem period_records (i + 1) ;; Ok (StoreStatus.timestamp_utc r)
       else Ok current_time) ;;
    let time_diff := (total_seconds (next_time - StoreStatus.timestamp_utc record) / 60)%Q in
    Ok (uptime_minutes + time_diff)%Q
  else Ok uptime_minutes.

Fixpoint for_each {A S : Type} (body : S -> A -> result S) (l : list A) (s : S) : result S :=
  match l with
  | [] => Ok s
  | x :: l' => s' <- body s x ;; for_each body l' s'
  end.

Definition uptime_loop (period_records : list StoreStatus.t) (current_time : datetime)
  : result Q :=
  for_each (uptime_step period_records current_time) (enumerate period_records) 0%Q.

(** ** The engine *)

Section Engine.

(** The time zone database: a known zone name gives the offset from UTC,
    in microseconds, in force at each UTC instant. *)
Variable tzdata : string -> option (datetime -> Z).

(** [pytz.timezone(name)] *)
Definition pytz_timezone (name : string) : result (datetime -> Z) :=
  match tzdata name with
  | Some tz => Ok tz
  | None => Raise UnknownTimeZoneError
  end.

(** [timestamp_utc.replace(tzinfo=pytz.UTC).astimezone(local_tz)], as the
    local wall-clock instant. *)
Definition astimezone (timestamp_utc : datetime) (local_tz : datetime -> Z) : datetime :=
  timestamp_utc + local_tz timestamp_utc.

(** The [try] block of [is_store_open]. *)
Definition is_store_open_body (store_id : string) (timestamp_utc : datetime)
  (db : Session) : result bool :=
  timezone_record <- query_timezone db store_id ;;
  let timezone_str :=
    match timezone_record with
    | Some r => StoreTimezone.timezone_str r
    | None => "America/Chicago"
    end in
  local_tz <- pytz_timezone timezone_str ;;
  let local_time := astimezone timestamp_utc local_tz in
  let day_of_week := weekday (date_of local_time) in
  hours_record <- query_hours db store_id day_of_week ;;
  match hours_record with
  | None => Ok true
  | Some h =>
      start_time <- strptime_HM (StoreHours.start_time_local h) ;;
      end_time <- strptime_HM (StoreHours.end_time_local h) ;;
      let current_time := time_of local_time in
      if time_gtb start_time end_time
      then Ok (time_geb current_time start_time || time_leb current_time end_time)
      else Ok (time_leb start_time current_time && time_leb current_time end_time)
  end.

Definition is_store_open (store_id : string) (timestamp_utc : datetime)
  (db : Session) : bool :=
  try_except (is_store_open_body store_id timestamp_utc db) true.

(** The records of a store that fall inside business hours. *)
Definition business_hours_records (store_id : string) (db : Session)
  (status_records : list StoreStatus.t) : list StoreStatus.t :=
  filter (fun record => is_store_open store_id (StoreStatus.timestamp_utc record) db)
         status_records.

(** The length of the trailing window, [None] for an unknown period. *)
Definition period_delta (time_period : string) : option Z :=
  if String.eqb time_period "hour" then Some (timedelta_hours 1)
  else if String.eqb time_period "day" then Some (timedelta_days 1)
  else if String.eqb time_period "week" then Some (timedelta_weeks 1)
  else None.

(** [[r for r in business_hours_records if r.timestamp_utc >= start_time]] *)
Definition period_records (start_time : datetime) (records : list StoreStatus.t)
  : list StoreStatus.t :=
  filter (fun r => StoreStatus.timestamp_utc r >=? start_time) records.

(** The last step: hour-window values stay as they are, the others are
    divided by 60. *)
Definition convert_units (time_period : string) (uptime_minutes downtime_minutes : Q)
  : Q * Q :=
  if String.eqb time_period "hour"
  then (uptime_minutes, downtime_minutes)
  else ((uptime_minutes / 60)%Q, (downtime_minutes / 60)%Q).

(** [calculate_uptime_downtime] up to the computation of
    [downtime_minutes]: [None] stands for each early [return 0, 0],
    [Some (uptime_minutes, downtime_minutes)] for the values reached at
    the end. *)
Definition window_minutes (store_id : string) (db : Session)
  (MAX_TIMESTAMP : option datetime) (time_period : string) : result (option (Q * Q)) :=
  status_records <- query_status db store_id ;;
  match status_records with
  | [] => Ok None
  | _ :: _ =>
    match business_hours_records store_id db status_records with
    | [] => Ok None
    | (_ :: _) as bh_records =>
      match period_delta time_period with
      | None => Ok None
      | Some delta =>
        match MAX_TIMESTAMP with
        | None => Raise TypeError      (* None - timedelta(...) *)
        | Some current_time =>
          let start_time := current_time - delta in
          match period_records start_time bh_records with
          | [] => Ok None
          | (_ :: _) as p_records =>
            total_business_minutes <-
              business_minutes_while db store_id
                (date_of start_time) (date_of current_time) 0 ;;
            uptime_minutes <- uptime_loop p_records current_time ;;
            let downtime_minutes :=
              (inject_Z total_business_minutes - uptime_minutes)%Q in
            Ok (Some (uptime_minutes, downtime_minutes))
          end
        end
      end
    end
  end.

(** The [try] block of [calculate_uptime_downtime]. *)
Definition calculate_uptime_downtime_body (store_id : string) (db : Session)
  (MAX_TIMESTAMP : option datetime) (time_period : string) : result (Q * Q) :=
  r <- window_minutes store_id db MAX_TIMESTAMP time_period ;;
  match r with
  | None => Ok (0%Q, 0%Q)
  | Some (uptime_minutes, downtime_minutes) =>
      Ok (convert_units time_period uptime_minutes downtime_minutes)
  end.

Definition calculate_uptime_downtime (store_id : string) (db : Session)
  (MAX_TIMESTAMP : option datetime) (time_period : string) : Q * Q :=
  try_except (calculate_uptime_downtime_body store_id db MAX_TIMESTAMP time_period)
             (0%Q, 0%Q).

(** [round(x, 2)] *)
Definition round_half_even (x : Q) : Z :=
  let f := Qfloor x in
  match (x - inject_Z f ?= 1 # 2)%Q with
  | Lt => f
  | Gt => f + 1
  | Eq => if Z.even f then f else f + 1
  end.

Definition round2 (x : Q) : Q := (inject_Z (round_half_even (x * 100)) / 100)%Q.

(** A row of [report_data]. *)
Record ReportRow : Type := mk_row {
  row_store_id : string;
  uptime_last_hour : Q;
  uptime_last_day : Q;
  uptime_last_week : Q;
  downtime_last_hour : Q;
  downtime_last_day : Q;
  downtime_last_week : Q
}.

(** The body of the loop [for store_id in store_ids] of [generate_report]. *)
Definition report_row (db : Session) (MAX_TIMESTAMP : option datetime)
  (store_id : string) : ReportRow :=
  let '(uptime_hour, downtime_hour) :=
    calculate_uptime_downtime store_id db MAX_TIMESTAMP "hour" in
  let '(uptime_day, downtime_day) :=
    calculate_uptime_downtime store_id db MAX_TIMESTAMP "day" in
  let '(uptime_week, downtime_week) :=
    calculate_uptime_downtime store_id db MAX_TIMESTAMP "week" in
  mk_row store_id
         (round2 uptime_hour) (round2 uptime_day) (round2 uptime_week)
         (round2 downtime_hour) (round2 downtime_day) (round2 downtime_week).

(** The final status of a report, with the rows written when it completes. *)
Inductive report_outcome : Type :=
| Complete (report_data : list ReportRow)
| Failed.

(** The [try] block of [generate_report], up to [report_data].  Writing
    the file and updating the report record belong to the storage layer
    and are taken to succeed. *)
Definition generate_report_body (db : Session) (MAX_TIMESTAMP : option datetime)
  : result (list ReportRow) :=
  store_ids <- query_store_ids db ;;
  Ok (map (report_row db MAX_TIMESTAMP) store_ids).

Definition generate_report (db : Session) (MAX_TIMESTAMP : option datetime)
  : report_outcome :=
  match generate_report_body db MAX_TIMESTAMP with
  | Ok report_data => Complete report_data
  | Raise _ => Failed
  end.

End Engine.

(** ** The specification's own wording of the two accumulators *)

(** Minutes between two instants. *)
Definition minutes_between (t t' : datetime) : Q := (total_seconds (t' - t) / 60)%Q.

(** Forward fill: an active sample counts until the next sample, or until
    the end of the window when it is the last one. *)
Fixpoint spec_uptime (samples : list StoreStatus.t) (window_end : datetime) : Q :=
  match samples with
  | [] => 0%Q
  | s :: rest =>
      let next :=
        match rest with
        | [] => window_end
        | s' :: _ => StoreStatus.timestamp_utc s'
        end in
      ((if String.eqb (StoreStatus.status s) "active"
        then minutes_between (StoreStatus.timestamp_utc s) next
        else 0) + spec_uptime rest window_end)%Q
  end.

(** The schedule entry of a store for a weekday, with its two times
    parsed: the first row of the store for that weekday, if any. *)
Definition schedule_entry (db : Session) (store_id : string) (day_of_week : Z)
  : result (option (time * time)) :=
  hours_record <- query_hours db store_id day_of_week ;;
  match hours_record with
  | None => Ok None
  | Some h =>
      start_time <- strptime_HM (StoreHours.start_time_local h) ;;
      end_time <- strptime_HM (StoreHours.end_time_local h) ;;
      Ok (Some (start_time, end_time))
  end.

(** The budget of one calendar date, in the specification's words. *)
Definition spec_day_budget (entry : option (time * time)) : Z :=
  match entry with
  | None => 1440
  | Some (start_time, end_time) =>
      if time_leb start_time end_time
      then (hour end_time * 60 + minute end_time)
           - (hour start_time * 60 + minute start_time)
      else (1440 - hour start_time * 60 - minute start_time)
           + (hour end_time * 60 + minute end_time)
  end.

(** The [n] calendar dates from [d] on. *)
Fixpoint dates_from (d : date) (n : nat) : list date :=
  match n with
  | O => []
  | S k => d :: dates_from (d + 1) k
  end.

(** Every calendar date from [first] to [last], both included. *)
Definition dates_between (first last : date) : list date :=
  dates_from first (Z.to_nat (last - first + 1)).

Definition spec_business_minutes (schedule : Z -> option (time * time))
  (first last : date) : Z :=
  fold_right Z.add 0
    (map (fun d => spec_day_budget (schedule (weekday d))) (dates_between first last)).


(** The zone a store resolves to: its row in the time zone table, or the
    default zone when it has none. *)
Definition resolved_zone (tzdata : string -> option (datetime -> Z))
  (db : Session) (store_id : string) : result (datetime -> Z) :=
  timezone_record <- query_timezone db store_id ;;
  pytz_timezone tzdata
    (match timezone_record with
     | Some r => StoreTimezone.timezone_str r
     | None => "America/Chicago"
     end).

(** [a <= b] on [time] objects, as a proposition. *)
Definition time_le (a b : time) : Prop := time_leb a b = true.

(** ** Concrete data sets *)

(** A small time zone table: UTC and a zone five and a half hours ahead. *)
Definition small_tzdata (name : string) : option (datetime -> Z) :=
  if String.eqb name "UTC" then Some (fun _ => 0)
  else if String.eqb name "Asia/Kolkata" then Some (fun _ => 330 * us_per_minute)
  else None.

(** 2023-01-02 is a Monday. *)
Definition monday (h mi : Z) : datetime := mk_datetime 2023 1 2 h mi 0.

(** The end-to-end scenario: store S in zone UTC, open on Mondays from
    09:00 to 17:00, polled on a Monday at 09:00 (active), 12:00 (active)
    and 16:00 (inactive).  A poll of another store at 17:00 makes that
    instant the latest timestamp of the data set. *)
Definition scenario_db : Session :=
  mk_session
    [ StoreStatus.mk "S" (monday 9 0) "active";
      StoreStatus.mk "S" (monday 12 0) "active";
      StoreStatus.mk "S" (monday 16 0) "inactive";
      StoreStatus.mk "T" (monday 17 0) "active" ]
    [ StoreHours.mk "S" 0 "09:00" "17:00" ]
    [ StoreTimezone.mk "S" "UTC"; StoreTimezone.mk "T" "UTC" ]
    true true true.

Definition scenario_now : option datetime := max_timestamp (store_status scenario_db).

(** A store without schedule polled once, eight hours before the latest
    timestamp of the data set. *)
Definition quiet_db : Session :=
  mk_session
    [ StoreStatus.mk "Q" (monday 9 0) "active";
      StoreStatus.mk "T" (monday 17 0) "active" ]
    []
    [ StoreTimezone.mk "Q" "UTC"; StoreTimezone.mk "T" "UTC" ]
    true true true.

(** A store open on Mondays from 09:00 to 09:30, polled active at 09:00
    and again at 10:00, after closing time. *)
Definition short_day_db : Session :=
  mk_session
    [ StoreStatus.mk "N" (monday 9 0) "active";
      StoreStatus.mk "N" (monday 10 0) "active" ]
    [ StoreHours.mk "N" 0 "09:00" "09:30" ]
    [ StoreTimezone.mk "N" "UTC" ]
    true true true.

(** A store open overnight on Mondays, from 22:00 to 06:00, in a zone
    five and a half hours ahead of UTC. *)
Definition overnight_db : Session :=
  mk_session
    []
    [ StoreHours.mk "O" 0 "22:00" "06:00" ]
    [ StoreTimezone.mk "O" "Asia/Kolkata" ]
    true true true.

(** The instant that reads [h]:[mi] on that Monday in the zone of the
    overnight store. *)
Definition kolkata_monday (h mi : Z) : datetime := monday h mi - 330 * us_per_minute.

(** Rows with a zone name the table does not know, and with a closing
    time that is not in HH:MM format. *)
Definition unknown_zone_db : Session :=
  mk_session
    [ StoreStatus.mk "U" (monday 12 0) "active" ]
    [ StoreHours.mk "U" 0 "09:00" "17:00" ]
    [ StoreTimezone.mk "U" "Mars/Olympus" ]
    true true true.

Definition malformed_hours_db : Session :=
  mk_session
    [ StoreStatus.mk "M" (monday 20 0) "active" ]
    [ StoreHours.mk "M" 0 "09:00" "17:00:00" ]
    [ StoreTimezone.mk "M" "UTC" ]
    true true true.


(** Equality of result pairs, field by field. *)
Definition pair_eq (p q : Q * Q) : Prop :=
  (fst p == fst q)%Q /\ (snd p == snd q)%Q.

(** ** The report service

    The endpoints [trigger_report] and [get_report], and [generate_report]
    as the background task that records its outcome.  The reports table is
    taken to answer; the identifier drawn by [uuid.uuid4()] is an argument;
    [created_at] takes no part in any decision and is left out.  The file
    system is the list of the files written, each with the rows it holds. *)

Module Report.
Record t : Type := mk {
  id : string;
  status : string;                 (* 'Running', 'Complete' or 'Failed' *)
  csv_file_path : option string
}.
End Report.

Record App : Type := mk_app {
  session : Session;
  reports : list Report.t;
  files : list (string * list ReportRow)
}.

(** What an endpoint hands back. *)
Inductive response : Type :=
| JsonReportId (report_id : string)
| JsonStatus (status : string) (message : option string)
| FileResponse (path media_type filename : string).

Inductive http_outcome : Type :=
| Respond (r : response)
| HTTPException (status_code : Z) (detail : string).

(** [db.query(Report).filter(Report.id == report_id).first()] *)
Definition query_report (app : App) (report_id : string) : option Report.t :=
  find (fun r => String.eqb (Report.id r) report_id) (reports app).

(** [os.path.exists(path)] *)
Definition path_exists (app : App) (path : string) : bool :=
  existsb (fun f => String.eqb (fst f) path) (files app).

(** Truth value of [report.csv_file_path]: set and not empty. *)
Definition truthy (s : option string) : bool :=
  match s with
  | Some p => negb (String.eqb p "")
  | None => false
  end.

(** The [try] block of [get_report]. *)
Definition get_report_body (app : App) (report_id : string) : http_outcome :=
  match query_report app report_id with
  | None => HTTPException 404 "Report not found"
  | Some report =>
      if String.eqb (Report.status report) "Running" then
        Respond (JsonStatus "Running" None)
      else if String.eqb (Report.status report) "Complete" then
        match Report.csv_file_path report with
        | Some path =>
            if truthy (Some path) && path_exists app path
            then Respond (FileResponse path "text/csv"
                            ("store_report_" ++ report_id ++ ".csv"))
            else HTTPException 500 "Report file not found"
        | None => HTTPException 500 "Report file not found"
        end
      else if String.eqb (Report.status report) "Failed" then
        Respond (JsonStatus "Failed" (Some "Report generation failed"))
      else Respond (JsonStatus "Unknown" None)
  end.

(** [get_report]: the handler [except Exception] also catches the
    [HTTPException]s raised in the [try] block. *)
Definition get_report (app : App) (report_id : string) : http_outcome :=
  match get_report_body app report_id with
  | Respond r => Respond r
  | HTTPException _ _ => HTTPException 500 "Failed to get report"
  end.




(** ** Predicates used in the statements *)

(** Each sample is not later than the next one, and the last one is not
    later than the end of the window. *)
Fixpoint chronological (samples : list StoreStatus.t) (window_end : datetime) : Prop :=
  match samples with
  | [] => True
  | s :: rest =>
      StoreStatus.timestamp_utc s
      <= match rest with
         | [] => window_end
         | s' :: _ => StoreStatus.timestamp_utc s'
         end
      /\ chronological rest window_end
  end.

(** The store has no row in the schedule table. *)
Definition unscheduled (db : Session) (store_id : string) : Prop :=
  forall h, In h (store_hours db) -> StoreHours.store_id h <> store_id.

(** The budgets of the seven weekdays, added up. *)
Definition spec_week_budget (schedule : Z -> option (time * time)) : Z :=
  fold_right Z.add 0 (map (fun w => spec_day_budget (schedule w)) [0; 1; 2; 3; 4; 5; 6]).

(** Two sessions that differ at most in the status rows of other stores. *)
Definition same_for_store (store_id : string) (db db' : Session) : Prop :=
  filter (fun r => String.eqb (StoreStatus.store_id r) store_id) (store_status db)
  = filter (fun r => String.eqb (StoreStatus.store_id r) store_id) (store_status db')
  /\ store_hours db = store_hours db'
  /\ store_timezone db = store_timezone db'
  /\ status_up db = status_up db'
  /\ hours_up db = hours_up db'
  /\ timezone_up db = timezone_up db'.

(** An application state around the scenario, without report. *)
Definition scenario_app : App := mk_app scenario_db [] [].

(** [h] and [m] written as HH:MM, two digits each. *)
Definition two_digits (n : Z) : string :=
  String (ascii_of_nat (Z.to_nat (48 + n / 10)))
    (String (ascii_of_nat (Z.to_nat (48 + n mod 10))) EmptyString).

Definition format_HM (h m : Z) : string := two_digits h ++ ":" ++ two_digits m.

(** Minutes since midnight of a time of day. *)
Definition minute_of_day (t : time) : Z := hour t * 60 + minute t.

(** A time of day as [strptime] builds it from HH:MM. *)
Definition hm_time (t : time) : Prop :=
  0 <= hour t <= 23 /\ 0 <= minute t <= 59 /\ second t = 0 /\ microsecond t = 0.

(** Samples in non-decreasing order of timestamp. *)
Definition by_timestamp (a b : StoreStatus.t) : Prop :=
  StoreStatus.timestamp_utc a <= StoreStatus.timestamp_utc b.


(** The scenario with the other store polled a day later, at 18:00 on the
    Tuesday. *)
Definition scenario_later_db : Session :=
  mk_session
    [ StoreStatus.mk "S" (monday 9 0) "active";
      StoreStatus.mk "S" (monday 12 0) "active";
      StoreStatus.mk "S" (monday 16 0) "inactive";
      StoreStatus.mk "T" (mk_datetime 2023 1 3 18 0 0) "active" ]
    [ StoreHours.mk "S" 0 "09:00" "17:00" ]
    [ StoreTimezone.mk "S" "UTC"; StoreTimezone.mk "T" "UTC" ]
    true true true.

(** The most a window can show as downtime, in the unit it is reported
    in: two full dates for the hour and day windows, eight for the week
    window. *)
Definition downtime_cap (time_period : string) : Q :=
  if String.eqb time_period "hour" then 2880
  else if String.eqb time_period "day" then 48
  else if String.eqb time_period "week" then 192
  else 0.

(** One turn of the date loop: the minutes of a date added to the total,
    unless its lookup raises. *)
Definition add_day_minutes (db : Session) (store_id : string)
  (total : Z) (d : date) : result Z :=
  m <- day_minutes db store_id d ;; Ok (total + m).
(** * Properties *)

(** ** The uptime extrapolator (C3) *)

Lemma getitem_app_succ (prefix : list StoreStatus.t) (s s' : StoreStatus.t)
  (rest : list StoreStatus.t) :
  getitem (prefix ++ s :: s' :: rest) (List.length prefix + 1) = Ok s'.
Proof.
  unfold getitem.
  rewrite nth_error_app2 by lia.
  replace (List.length prefix + 1 - List.length prefix)%nat with 1%nat by lia.
  reflexivity.
Qed.

Lemma uptime_loop_invariant (window_end : datetime) (suffix : list StoreStatus.t) :
  forall (prefix : list StoreStatus.t) (acc : Q),
  exists u,
    for_each (uptime_step (prefix ++ suffix) window_end)
             (combine (seq (List.length prefix) (List.length suffix)) suffix) acc = Ok u
    /\ (u == acc + spec_uptime suffix window_end)%Q.
Proof.
  induction suffix as [| s rest IH]; intros prefix acc.
  - exists acc. split; [reflexivity | simpl; ring].
  - cbn [List.length seq combine for_each].
    assert (Hnext : exists u1,
      uptime_step (prefix ++ s :: rest) window_end acc (List.length prefix, s) = Ok u1
      /\ (u1 == acc + (if String.eqb (StoreStatus.status s) "active"
                       then minutes_between (StoreStatus.timestamp_utc s)
                              (match rest with
                               | [] => window_end
                               | s' :: _ => StoreStatus.timestamp_utc s'
                               end)
                       else 0))%Q).
    { unfold uptime_step.
      destruct (String.eqb (StoreStatus.status s) "active").
      - rewrite length_app. cbn [List.length].
        destruct rest as [| s' rest'].
        + cbn [List.length].
          replace (Z.of_nat (List.length prefix) <?
                   Z.of_nat (List.length prefix + 1) - 1) with false
            by (symmetry; apply Z.ltb_ge; lia).
          cbn [bind]. eexists. split; [reflexivity | reflexivity].
        + cbn [List.length].
          replace (Z.of_nat (List.length prefix) <?
                   Z.of_nat (List.length prefix + S (S (List.length rest'))) - 1) with true
            by (symmetry; apply Z.ltb_lt; lia).
          rewrite getitem_app_succ. cbn [bind].
          eexists. split; [reflexivity | reflexivity].
      - exists acc. split; [reflexivity | ring]. }
    destruct Hnext as (u1 & Hstep & Hu1).
    rewrite Hstep. cbn [bind].
    specialize (IH (prefix ++ [s])%list u1).
    rewrite <- app_assoc in IH. cbn [app] in IH.
    rewrite length_app in IH. cbn [List.length] in IH.
    replace (List.length prefix + 1)%nat with (S (List.length prefix)) in IH by lia.
    destruct IH as (u & Hrun & Hu).
    exists u. split; [exact Hrun |].
    rewrite Hu, Hu1. cbn [spec_uptime]. ring.
Qed.

Lemma uptime_loop_returns (samples : list StoreStatus.t) (window_end : datetime) :
  exists u, uptime_loop samples window_end = Ok u
            /\ (u == spec_uptime samples window_end)%Q.
Proof.
  destruct (uptime_loop_invariant window_end samples [] 0%Q) as (u & Hrun & Hu).
  exists u. split; [exact Hrun | rewrite Hu; ring].
Qed.

(** C3. On every sequence of samples and every window end, the loop of
    [calculate_uptime_downtime] returns (it never raises) the forward-fill
    sum: each sample whose status is 'active' adds the minutes up to the
    next sample, or up to the window end when it is the last one, and every
    other sample adds nothing.  In particular the samples (t0, active),
    (t1, inactive), (t2, active) give (t1 - t0) + (window_end - t2). *)
Theorem uptime_loop_forward_fill :
  (forall (samples : list StoreStatus.t) (window_end : datetime),
      exists u, uptime_loop samples window_end = Ok u
                /\ (u == spec_uptime samples window_end)%Q)
  /\ (forall (sid : string) (t0 t1 t2 window_end : datetime),
      exists u,
        uptime_loop [StoreStatus.mk sid t0 "active";
                     StoreStatus.mk sid t1 "inactive";
                     StoreStatus.mk sid t2 "active"] window_end = Ok u
        /\ (u == minutes_between t0 t1 + minutes_between t2 window_end)%Q).
Proof.
  split; [exact uptime_loop_returns |].
  intros sid t0 t1 t2 window_end.
  destruct (uptime_loop_returns [StoreStatus.mk sid t0 "active";
                  StoreStatus.mk sid t1 "inactive";
                  StoreStatus.mk sid t2 "active"] window_end) as (u & Hrun & Hu).
  exists u. split; [exact Hrun |].
  rewrite Hu. cbn. ring.
Qed.

(** ** The business-minutes accumulator (C2) *)

Lemma time_gtb_leb (a b : time) : time_gtb a b = negb (time_leb a b).
Proof. unfold time_gtb, time_leb. destruct (time_cmp a b); reflexivity. Qed.

Lemma day_minutes_budget (db : Session) (store_id : string) (d : date)
  (entry : option (time * time)) :
  schedule_entry db store_id (weekday d) = Ok entry ->
  day_minutes db store_id d = Ok (spec_day_budget entry).
Proof.
  unfold schedule_entry, day_minutes.
  destruct (query_hours db store_id (weekday d)) as [[h |] | e]; cbn [bind].
  - destruct (strptime_HM (StoreHours.start_time_local h)) as [s | e]; cbn [bind];
      [| discriminate].
    destruct (strptime_HM (StoreHours.end_time_local h)) as [t | e]; cbn [bind];
      [| discriminate].
    intros H. injection H as <-. cbn [spec_day_budget].
    rewrite time_gtb_leb. destruct (time_leb s t); cbn [negb]; f_equal; ring.
  - intros H. injection H as <-. reflexivity.
  - discriminate.
Qed.

Lemma dates_between_cons (first last : date) :
  first <= last ->
  dates_between first last = first :: dates_between (first + 1) last.
Proof.
  intros Hle. unfold dates_between.
  replace (Z.to_nat (last - first + 1)) with (S (Z.to_nat (last - (first + 1) + 1))) by lia.
  reflexivity.
Qed.

Lemma dates_between_empty (first last : date) :
  first > last -> dates_between first last = [].
Proof.
  intros Hgt. unfold dates_between.
  replace (Z.to_nat (last - first + 1)) with O by lia. reflexivity.
Qed.

Lemma business_minutes_while_sum (db : Session) (store_id : string)
  (schedule : Z -> option (time * time)) (last : date) (n : nat) :
  forall (current_date : date) (total : Z),
    Z.to_nat (last - current_date + 1) = n ->
    (forall d, current_date <= d <= last ->
               schedule_entry db store_id (weekday d) = Ok (schedule (weekday d))) ->
    business_minutes_while db store_id current_date last total
    = Ok (total + spec_business_minutes schedule current_date last).
Proof.
  induction n as [| k IH]; intros current_date total Hn Hsched;
    rewrite business_minutes_while_equation_1;
    destruct (Z_le_gt_dec current_date last) as [Hle | Hgt]; try lia.
  - unfold spec_business_minutes. rewrite dates_between_empty by lia.
    cbn. f_equal. ring.
  - rewrite (day_minutes_budget db store_id current_date (schedule (weekday current_date)))
      by (apply Hsched; lia).
    rewrite IH; [| lia | intros d Hd; apply Hsched; lia].
    unfold spec_business_minutes. rewrite (dates_between_cons current_date last Hle).
    cbn [map fold_right]. f_equal. ring.
Qed.

(** C2. The business-minutes total of a window is the sum, over every
    calendar date from the date of the window start to the date of the
    window end, both included, of the fixed budget of that date's weekday
    entry: 1440 without an entry, end minus start when start <= end, and
    (1440 - start) + end when start > end.  Boundary dates count in full:
    every window with the same two dates has the same total. *)
Theorem business_minutes_is_sum_of_day_budgets
  (db : Session) (store_id : string) (schedule : Z -> option (time * time))
  (window_start window_end : datetime) :
  (forall d, date_of window_start <= d <= date_of window_end ->
             schedule_entry db store_id (weekday d) = Ok (schedule (weekday d))) ->
  business_minutes_while db store_id (date_of window_start) (date_of window_end) 0
  = Ok (spec_business_minutes schedule (date_of window_start) (date_of window_end))
  /\ (forall window_start' window_end' : datetime,
        date_of window_start' = date_of window_start ->
        date_of window_end' = date_of window_end ->
        business_minutes_while db store_id
          (date_of window_start') (date_of window_end') 0
        = Ok (spec_business_minutes schedule
                (date_of window_start) (date_of window_end))).
Proof.
  intros Hsched.
  assert (Hsum :
    business_minutes_while db store_id (date_of window_start) (date_of window_end) 0
    = Ok (spec_business_minutes schedule (date_of window_start) (date_of window_end))).
  { rewrite (business_minutes_while_sum db store_id schedule (date_of window_end)
               (Z.to_nat (date_of window_end - date_of window_start + 1))
               (date_of window_start) 0 eq_refl Hsched).
    reflexivity. }
  split; [exact Hsum |].
  intros ws we -> ->. exact Hsum.
Qed.

(** The day window of the scenario touches the Sunday, without entry, and
    the Monday, open from 09:00 to 17:00: 1440 + 480 minutes. *)
Lemma business_minutes_is_sum_of_day_budgets_witness :
  let schedule := fun day_of_week : Z =>
    if day_of_week =? 0 then Some (mk_time 9 0 0 0, mk_time 17 0 0 0) else None in
  spec_business_minutes schedule
    (date_of (monday 17 0 - timedelta_days 1)) (date_of (monday 17 0)) = 1920
  /\ business_minutes_while scenario_db "S"
       (date_of (monday 17 0 - timedelta_days 1)) (date_of (monday 17 0)) 0
     = Ok (spec_business_minutes schedule
             (date_of (monday 17 0 - timedelta_days 1)) (date_of (monday 17 0))).
Proof.
  cbv zeta. split; [reflexivity |].
  destruct (business_minutes_is_sum_of_day_budgets scenario_db "S"
              (fun day_of_week : Z =>
                 if day_of_week =? 0
                 then Some (mk_time 9 0 0 0, mk_time 17 0 0 0) else None)
              (monday 17 0 - timedelta_days 1) (monday 17 0)) as [Hsum _].
  - intros d Hd.
    change (date_of (monday 17 0 - timedelta_days 1)) with 738521 in Hd.
    change (date_of (monday 17 0)) with 738522 in Hd.
    assert (Hcases : d = 738521 \/ d = 738522) by lia.
    destruct Hcases as [-> | ->]; reflexivity.
  - exact Hsum.
Defined.

(** An overnight entry: from 22:00 to 06:00 the date counts for
    (1440 - 1320) + 360 minutes. *)
Example overnight_day_minutes :
  day_minutes overnight_db "O" (date_of (monday 0 0)) = Ok 480
  /\ spec_day_budget (Some (mk_time 22 0 0 0, mk_time 6 0 0 0)) = 480.
Proof. split; reflexivity. Qed.

(** ** The business-hours oracle (C4, C6) *)

Lemma lex_opp (c1 c2 : comparison) : CompOpp (lex c1 c2) = lex (CompOpp c1) (CompOpp c2).
Proof. destruct c1; reflexivity. Qed.

Lemma time_cmp_antisym (a b : time) : time_cmp b a = CompOpp (time_cmp a b).
Proof.
  unfold time_cmp. rewrite !lex_opp, <- !Z.compare_antisym. reflexivity.
Qed.

Lemma time_geb_leb (a b : time) : time_geb a b = time_leb b a.
Proof.
  unfold time_geb, time_leb. rewrite (time_cmp_antisym a b).
  destruct (time_cmp a b); reflexivity.
Qed.

Section Oracle.

Variable tzdata : string -> option (datetime -> Z).

Lemma is_store_open_body_resolved (db : Session) (store_id : string)
  (timestamp_utc : datetime) (local_tz : datetime -> Z) :
  resolved_zone tzdata db store_id = Ok local_tz ->
  is_store_open_body tzdata store_id timestamp_utc db
  = (entry <- schedule_entry db store_id
                (weekday (date_of (astimezone timestamp_utc local_tz))) ;;
     match entry with
     | None => Ok true
     | Some (start_time, end_time) =>
         let current_time := time_of (astimezone timestamp_utc local_tz) in
         if time_gtb start_time end_time
         then Ok (time_geb current_time start_time || time_leb current_time end_time)
         else Ok (time_leb start_time current_time && time_leb current_time end_time)
     end).
Proof.
  unfold resolved_zone, is_store_open_body, schedule_entry.
  destruct (query_timezone db store_id) as [rec | e]; cbn [bind]; [| discriminate].
  intros Hzone. rewrite Hzone. cbn [bind].
  destruct (query_hours db store_id _) as [[h |] | e]; cbn [bind]; try reflexivity.
  destruct (strptime_HM (StoreHours.start_time_local h)) as [s | e]; cbn [bind];
    [| reflexivity].
  destruct (strptime_HM (StoreHours.end_time_local h)) as [t | e]; cbn [bind];
    reflexivity.
Qed.

(** C4. When the zone of the store resolves and the schedule entry of the
    local weekday is well formed, [is_store_open] answers on the local
    wall-clock time: open without an entry; with start <= end, open exactly
    when start <= local time <= end; with start > end, open exactly when
    local time >= start or local time <= end.  With the entry 22:00-06:00
    this makes 23:00, 00:30 and 05:59 open, and 12:00 and 21:59 closed. *)
Theorem is_store_open_local_schedule
  (db : Session) (store_id : string) (timestamp_utc : datetime)
  (local_tz : datetime -> Z) (entry : option (time * time)) :
  resolved_zone tzdata db store_id = Ok local_tz ->
  schedule_entry db store_id (weekday (date_of (astimezone timestamp_utc local_tz)))
  = Ok entry ->
  let local_time := time_of (astimezone timestamp_utc local_tz) in
  let open := is_store_open tzdata store_id timestamp_utc db in
  (entry = None -> open = true)
  /\ (forall start_time end_time,
        entry = Some (start_time, end_time) ->
        (time_le start_time end_time ->
         (open = true <-> time_le start_time local_time /\ time_le local_time end_time))
        /\ (~ time_le start_time end_time ->
            (open = true <-> time_le start_time local_time \/ time_le local_time end_time)))
  /\ (entry = Some (mk_time 22 0 0 0, mk_time 6 0 0 0) ->
      (In local_time [mk_time 23 0 0 0; mk_time 0 30 0 0; mk_time 5 59 0 0] -> open = true)
      /\ (In local_time [mk_time 12 0 0 0; mk_time 21 59 0 0] -> open = false)).
Proof.
  intros Hzone Hentry local_time open.
  assert (Hopen : open =
    match entry with
    | None => true
    | Some (start_time, end_time) =>
        if time_gtb start_time end_time
        then time_geb local_time start_time || time_leb local_time end_time
        else time_leb start_time local_time && time_leb local_time end_time
    end).
  { unfold open, is_store_open.
    rewrite (is_store_open_body_resolved db store_id timestamp_utc local_tz Hzone).
    rewrite Hentry. cbn [bind].
    destruct entry as [[s t] |]; [| reflexivity].
    cbv zeta. fold local_time. destruct (time_gtb s t); reflexivity. }
  split; [| split].
  - intros ->. exact Hopen.
  - intros s t ->. rewrite Hopen, time_gtb_leb, time_geb_leb. unfold time_le.
    split; intros Hst.
    + rewrite Hst. cbn [negb]. apply andb_true_iff.
    + destruct (time_leb s t); [contradiction Hst; reflexivity |].
      cbn [negb]. apply orb_true_iff.
  - intros ->. rewrite Hopen.
    split; intros Hin; cbn [In] in Hin;
      repeat (destruct Hin as [<- | Hin]; [reflexivity |]); contradiction.
Qed.

(** The overnight store at 00:30 local time, which is 19:00 UTC on the day
    before.  The local weekday is the one of the schedule entry. *)
End Oracle.

Lemma is_store_open_local_schedule_witness :
  resolved_zone small_tzdata overnight_db "O" = Ok (fun _ => 330 * us_per_minute)
  /\ schedule_entry overnight_db "O"
       (weekday (date_of (astimezone (kolkata_monday 0 30) (fun _ => 330 * us_per_minute))))
     = Ok (Some (mk_time 22 0 0 0, mk_time 6 0 0 0))
  /\ is_store_open small_tzdata "O" (kolkata_monday 0 30) overnight_db = true.
Proof.
  split; [reflexivity | split; [reflexivity |]].
  apply (is_store_open_local_schedule small_tzdata overnight_db "O" (kolkata_monday 0 30)
           (fun _ => 330 * us_per_minute)
           (Some (mk_time 22 0 0 0, mk_time 6 0 0 0)) eq_refl eq_refl).
  - reflexivity.
  - right. left. reflexivity.
Defined.

(** C6. [is_store_open] fails open: whatever exception its body raises,
    the caller gets [true] and no exception.  The body does raise when the
    zone of the store does not resolve (an unknown zone name), and when the
    start or end time of the schedule entry is not in HH:MM format. *)
Theorem is_store_open_fails_open
  (tzdata : string -> option (datetime -> Z))
  (db : Session) (store_id : string) (timestamp_utc : datetime) :
  (forall e, is_store_open_body tzdata store_id timestamp_utc db = Raise e ->
             is_store_open tzdata store_id timestamp_utc db = true)
  /\ (forall e, resolved_zone tzdata db store_id = Raise e ->
                is_store_open_body tzdata store_id timestamp_utc db = Raise e)
  /\ (forall local_tz h,
        resolved_zone tzdata db store_id = Ok local_tz ->
        query_hours db store_id (weekday (date_of (astimezone timestamp_utc local_tz)))
        = Ok (Some h) ->
        (exists e, strptime_HM (StoreHours.start_time_local h) = Raise e
                   \/ strptime_HM (StoreHours.end_time_local h) = Raise e) ->
        exists e, is_store_open_body tzdata store_id timestamp_utc db = Raise e).
Proof.
  split; [| split].
  - intros e Hraise. unfold is_store_open. rewrite Hraise. reflexivity.
  - intros e. unfold resolved_zone, is_store_open_body.
    destruct (query_timezone db store_id) as [rec | e']; cbn [bind].
    + intros Hzone. rewrite Hzone. reflexivity.
    + intros Hzone. injection Hzone as ->. reflexivity.
  - intros local_tz h Hzone Hquery (e & Hbad).
    rewrite (is_store_open_body_resolved tzdata db store_id timestamp_utc local_tz Hzone).
    unfold schedule_entry. rewrite Hquery. cbn [bind].
    destruct Hbad as [Hbad | Hbad].
    + rewrite Hbad. exists e. reflexivity.
    + rewrite Hbad.
      destruct (strptime_HM (StoreHours.start_time_local h)) as [s | e'];
        [exists e | exists e']; reflexivity.
Qed.

(** A zone name missing from the table, and a closing time written with
    seconds: both raise inside, both answer open. *)
Lemma is_store_open_fails_open_witness :
  (resolved_zone small_tzdata unknown_zone_db "U" = Raise UnknownTimeZoneError
   /\ is_store_open_body small_tzdata "U" (monday 12 0) unknown_zone_db
      = Raise UnknownTimeZoneError
   /\ is_store_open small_tzdata "U" (monday 12 0) unknown_zone_db = true)
  /\ (strptime_HM "17:00:00" = Raise ValueError
      /\ is_store_open_body small_tzdata "M" (monday 20 0) malformed_hours_db
         = Raise ValueError
      /\ is_store_open small_tzdata "M" (monday 20 0) malformed_hours_db = true).
Proof.
  destruct (is_store_open_fails_open small_tzdata unknown_zone_db "U" (monday 12 0))
    as (Hopen & Hzone & _).
  destruct (is_store_open_fails_open small_tzdata malformed_hours_db "M" (monday 20 0))
    as (Hopen' & _ & Hparse).
  split.
  - split; [reflexivity |].
    split; [apply Hzone; reflexivity |].
    apply (Hopen UnknownTimeZoneError). apply Hzone. reflexivity.
  - split; [reflexivity |].
    split; [reflexivity |].
    destruct (Hparse (fun _ => 0) (StoreHours.mk "M" 0 "09:00" "17:00:00")
                eq_refl eq_refl) as (e & Hraise).
    + exists ValueError. right. reflexivity.
    + exact (Hopen' e Hraise).
Defined.

(** ** The per-window computation *)

Lemma In_insert_by_timestamp (r x : StoreStatus.t) (l : list StoreStatus.t) :
  In x (insert_by_timestamp r l) <-> x = r \/ In x l.
Proof.
  induction l as [| y l IH]; cbn [insert_by_timestamp].
  - cbn. intuition congruence.
  - destruct (StoreStatus.timestamp_utc r <=? StoreStatus.timestamp_utc y); cbn [In].
    + intuition congruence.
    + rewrite IH. intuition congruence.
Qed.

Lemma In_order_by_timestamp (x : StoreStatus.t) (l : list StoreStatus.t) :
  In x (order_by_timestamp l) <-> In x l.
Proof.
  unfold order_by_timestamp.
  induction l as [| y l IH]; cbn [fold_right In]; [reflexivity |].
  rewrite In_insert_by_timestamp, IH. intuition congruence.
Qed.

Lemma query_status_In (db : Session) (store_id : string)
  (records : list StoreStatus.t) (r : StoreStatus.t) :
  query_status db store_id = Ok records ->
  In r records ->
  In r (store_status db) /\ StoreStatus.store_id r = store_id.
Proof.
  unfold query_status. destruct (status_up db); [| discriminate].
  intros H. injection H as <-.
  rewrite In_order_by_timestamp, filter_In, String.eqb_eq. tauto.
Qed.

Lemma filter_nil_iff {A : Type} (f : A -> bool) (l : list A) :
  filter f l = [] <-> forall x, In x l -> f x = false.
Proof.
  induction l as [| a l IH]; cbn [filter].
  - split; [intros _ x [] | reflexivity].
  - destruct (f a) eqn:Hfa.
    + split; [discriminate |]. intros H.
      rewrite (H a (or_introl eq_refl)) in Hfa. discriminate.
    + rewrite IH. split.
      * intros H x [<- | Hx]; [exact Hfa | exact (H x Hx)].
      * intros H x Hx. apply H. right. exact Hx.
Qed.

Lemma max_timestamp_fold (rows : list StoreStatus.t) :
  forall (acc : option datetime) (m : datetime),
    fold_left
      (fun acc r =>
         match acc with
         | None => Some (StoreStatus.timestamp_utc r)
         | Some m => if StoreStatus.timestamp_utc r >? m
                     then Some (StoreStatus.timestamp_utc r) else Some m
         end) rows acc = Some m ->
    (forall a, acc = Some a -> a <= m)
    /\ (forall r, In r rows -> StoreStatus.timestamp_utc r <= m).
Proof.
  induction rows as [| x rows IH]; intros acc m; cbn [fold_left].
  - intros ->. split; [intros a [= ->]; lia | intros r []].
  - intros Hfold. destruct (IH _ m Hfold) as [Hacc Hrows].
    assert (Hx : StoreStatus.timestamp_utc x <= m
                 /\ forall a, acc = Some a -> a <= m).
    { destruct acc as [a |].
      - destruct (StoreStatus.timestamp_utc x >? a) eqn:Hcmp.
        + pose proof (Hacc _ eq_refl). split; [lia |]. intros a' [= <-]. lia.
        + pose proof (Hacc _ eq_refl). split; [lia |]. intros a' [= <-]. lia.
      - split; [exact (Hacc _ eq_refl) | discriminate]. }
    destruct Hx as [Hx Ha]. split; [exact Ha |].
    intros r [<- | Hr]; [exact Hx | exact (Hrows r Hr)].
Qed.

(** The reference instant bounds every timestamp of the data set. *)
Lemma max_timestamp_bound (rows : list StoreStatus.t) (now : datetime)
  (r : StoreStatus.t) :
  max_timestamp rows = Some now -> In r rows -> StoreStatus.timestamp_utc r <= now.
Proof.
  intros Hmax Hr. exact (proj2 (max_timestamp_fold rows None now Hmax) r Hr).
Qed.

Lemma period_delta_cases (time_period : string) (delta : Z) :
  period_delta time_period = Some delta ->
  (time_period = "hour" /\ delta = timedelta_hours 1)
  \/ (time_period = "day" /\ delta = timedelta_days 1)
  \/ (time_period = "week" /\ delta = timedelta_weeks 1).
Proof.
  unfold period_delta.
  destruct (String.eqb time_period "hour") eqn:Hh;
    [apply String.eqb_eq in Hh; intros [= <-]; auto |].
  destruct (String.eqb time_period "day") eqn:Hd;
    [apply String.eqb_eq in Hd; intros [= <-]; auto |].
  destruct (String.eqb time_period "week") eqn:Hw;
    [apply String.eqb_eq in Hw; intros [= <-]; auto | discriminate].
Qed.

Lemma period_delta_pos (time_period : string) (delta : Z) :
  period_delta time_period = Some delta -> 0 < delta.
Proof.
  intros H. destruct (period_delta_cases _ _ H) as [[_ ->] | [[_ ->] | [_ ->]]];
    reflexivity.
Qed.

Section Window.

Variable tzdata : string -> option (datetime -> Z).

(** What [calculate_uptime_downtime] computes once the samples are
    fetched and the window is known. *)
Lemma window_minutes_unfold (store_id : string) (db : Session)
  (now delta : datetime) (time_period : string) (records : list StoreStatus.t) :
  query_status db store_id = Ok records ->
  period_delta time_period = Some delta ->
  window_minutes tzdata store_id db (Some now) time_period
  = match period_records (now - delta)
            (business_hours_records tzdata store_id db records) with
    | [] => Ok None
    | (_ :: _) as p_records =>
        total_business_minutes <-
          business_minutes_while db store_id (date_of (now - delta)) (date_of now) 0 ;;
        uptime_minutes <- uptime_loop p_records now ;;
        Ok (Some (uptime_minutes, (inject_Z total_business_minutes - uptime_minutes)%Q))
    end.
Proof.
  intros Hquery Hdelta. unfold window_minutes. rewrite Hquery. cbn [bind].
  destruct records as [| r records]; [reflexivity |].
  destruct (business_hours_records tzdata store_id db (r :: records)) as [| b bh];
    [reflexivity |].
  rewrite Hdelta. reflexivity.
Qed.

(** Without a retained sample there is nothing to compute. *)
Lemma window_minutes_no_business_hours_records (store_id : string) (db : Session)
  (MAX_TIMESTAMP : option datetime) (time_period : string)
  (records : list StoreStatus.t) :
  query_status db store_id = Ok records ->
  business_hours_records tzdata store_id db records = [] ->
  window_minutes tzdata store_id db MAX_TIMESTAMP time_period = Ok None.
Proof.
  intros Hquery Hbh. unfold window_minutes. rewrite Hquery. cbn [bind].
  destruct records as [| r records]; [reflexivity |].
  rewrite Hbh. reflexivity.
Qed.

Lemma calculate_of_window_minutes (store_id : string) (db : Session)
  (MAX_TIMESTAMP : option datetime) (time_period : string) :
  calculate_uptime_downtime tzdata store_id db MAX_TIMESTAMP time_period
  = match window_minutes tzdata store_id db MAX_TIMESTAMP time_period with
    | Ok (Some (uptime_minutes, downtime_minutes)) =>
        convert_units time_period uptime_minutes downtime_minutes
    | _ => (0%Q, 0%Q)
    end.
Proof.
  unfold calculate_uptime_downtime, calculate_uptime_downtime_body.
  destruct (window_minutes tzdata store_id db MAX_TIMESTAMP time_period)
    as [[[u d] |] | e]; reflexivity.
Qed.

End Window.

(** ** Downtime (C5) *)

(** C5, amended.  For every store, reference instant and each of the
    three windows: when the samples of the store are fetched, at least one
    of them is retained and the accumulation of the business minutes over
    the dates of the window returns a total, the downtime before unit
    conversion is exactly that total minus the uptime estimate, and the
    reported pair is the conversion of these two values; nothing else enters
    it.  The difference is not clamped: there is a data set on which it is
    negative.  In the other cases (no sample retained, the accumulation
    raising, the sample query failing) the window is reported as (0, 0). *)
Theorem downtime_is_business_minus_uptime :
  (forall (tzdata : string -> option (datetime -> Z))
          (store_id : string) (db : Session) (now delta : datetime)
          (time_period : string),
      period_delta time_period = Some delta ->
      let calc :=
        calculate_uptime_downtime tzdata store_id db (Some now) time_period in
      let total_business_minutes :=
        business_minutes_while db store_id (date_of (now - delta)) (date_of now) 0 in
      (forall e, query_status db store_id = Raise e -> calc = (0%Q, 0%Q))
      /\ (forall records,
            query_status db store_id = Ok records ->
            let retained :=
              period_records (now - delta)
                (business_hours_records tzdata store_id db records) in
            (retained = [] -> calc = (0%Q, 0%Q))
            /\ (retained <> [] ->
                (forall e, total_business_minutes = Raise e -> calc = (0%Q, 0%Q))
                /\ (forall bm,
                      total_business_minutes = Ok bm ->
                      exists uptime_minutes,
                        uptime_loop retained now = Ok uptime_minutes
                        /\ window_minutes tzdata store_id db (Some now) time_period
                           = Ok (Some (uptime_minutes,
                                       (inject_Z bm - uptime_minutes)%Q))
                        /\ calc = convert_units time_period uptime_minutes
                                    (inject_Z bm - uptime_minutes)%Q))))
  /\ (snd (calculate_uptime_downtime small_tzdata "N" short_day_db
             (max_timestamp (store_status short_day_db)) "hour") < 0)%Q.
Proof.
  split.
  - intros tzdata store_id db now delta time_period Hdelta calc total.
    split.
    + intros e Hquery. unfold calc. rewrite calculate_of_window_minutes.
      unfold window_minutes. rewrite Hquery. reflexivity.
    + intros records Hquery retained.
      assert (Hunfold := window_minutes_unfold tzdata store_id db now delta
                           time_period records Hquery Hdelta).
      fold retained in Hunfold. fold total in Hunfold.
      split.
      * intros Hempty. unfold calc. rewrite calculate_of_window_minutes, Hunfold, Hempty.
        reflexivity.
      * intros Hnonempty.
        destruct retained as [| r rs] eqn:Hretained;
          [contradiction Hnonempty; reflexivity |].
        split.
        -- intros e Hraise. unfold calc.
           rewrite calculate_of_window_minutes, Hunfold, Hraise. reflexivity.
        -- intros bm Hbm.
           destruct (uptime_loop_returns (r :: rs) now) as (u & Hloop & _).
           exists u. split; [exact Hloop |].
           assert (Hwin : window_minutes tzdata store_id db (Some now) time_period
                          = Ok (Some (u, (inject_Z bm - u)%Q)))
             by (rewrite Hunfold, Hbm; cbn [bind]; rewrite Hloop; reflexivity).
           split; [exact Hwin |].
           unfold calc. rewrite calculate_of_window_minutes, Hwin. reflexivity.
  - vm_compute. reflexivity.
Qed.

(** The store open for half an hour: one retained sample, 30 business
    minutes, 60 minutes of uptime carried forward. *)
Lemma downtime_is_business_minus_uptime_witness :
  query_status short_day_db "N"
  = Ok [StoreStatus.mk "N" (monday 9 0) "active"; StoreStatus.mk "N" (monday 10 0) "active"]
  /\ period_delta "hour" = Some (timedelta_hours 1)
  /\ period_records (monday 10 0 - timedelta_hours 1)
       (business_hours_records small_tzdata "N" short_day_db
          [StoreStatus.mk "N" (monday 9 0) "active";
           StoreStatus.mk "N" (monday 10 0) "active"]) <> []
  /\ business_minutes_while short_day_db "N"
       (date_of (monday 10 0 - timedelta_hours 1)) (date_of (monday 10 0)) 0 = Ok 30
  /\ exists uptime_minutes,
       calculate_uptime_downtime small_tzdata "N" short_day_db (Some (monday 10 0)) "hour"
       = convert_units "hour" uptime_minutes (inject_Z 30 - uptime_minutes)%Q.
Proof.
  split; [reflexivity |].
  split; [reflexivity |].
  split; [vm_compute; discriminate |].
  split; [reflexivity |].
  destruct (proj1 downtime_is_business_minus_uptime small_tzdata "N" short_day_db
              (monday 10 0) (timedelta_hours 1) "hour" eq_refl) as [_ Hfetched].
  destruct (Hfetched [StoreStatus.mk "N" (monday 9 0) "active";
                      StoreStatus.mk "N" (monday 10 0) "active"] eq_refl)
    as [_ Hretained].
  destruct Hretained as [_ Htotal]; [vm_compute; discriminate |].
  destruct (Htotal 30 eq_refl) as (u & _ & _ & Hcalc).
  exists u. exact Hcalc.
Defined.

(** The subtraction is not what a window without retained sample
    reports: store Q has no sample in the last hour, the business minutes of that window are
    1440 and the uptime estimate of its (empty) sample sequence is 0, yet
    the reported downtime is 0. *)
Lemma downtime_of_empty_window_is_zero :
  let now := monday 17 0 in
  let start_time := now - timedelta_hours 1 in
  let p_records :=
    period_records start_time
      (business_hours_records small_tzdata "Q" quiet_db
         [StoreStatus.mk "Q" (monday 9 0) "active"]) in
  max_timestamp (store_status quiet_db) = Some now
  /\ query_status quiet_db "Q" = Ok [StoreStatus.mk "Q" (monday 9 0) "active"]
  /\ p_records = []
  /\ business_minutes_while quiet_db "Q" (date_of start_time) (date_of now) 0 = Ok 1440
  /\ uptime_loop p_records now = Ok 0%Q
  /\ calculate_uptime_downtime small_tzdata "Q" quiet_db (Some now) "hour" = (0%Q, 0%Q)
  /\ ~ (snd (calculate_uptime_downtime small_tzdata "Q" quiet_db (Some now) "hour")
        == inject_Z 1440 - 0)%Q.
Proof.
  cbv zeta. repeat split; try reflexivity.
  vm_compute. discriminate.
Qed.

(** ** Empty data (C9) and the window filter (C10) *)

Section EmptyData.

Variable tzdata : string -> option (datetime -> Z).

Lemma calculate_body_of_none (store_id : string) (db : Session)
  (MAX_TIMESTAMP : option datetime) (time_period : string) :
  window_minutes tzdata store_id db MAX_TIMESTAMP time_period = Ok None ->
  calculate_uptime_downtime_body tzdata store_id db MAX_TIMESTAMP time_period
  = Ok (0%Q, 0%Q).
Proof.
  intros H. unfold calculate_uptime_downtime_body. rewrite H. reflexivity.
Qed.

(** C9. None of the empty-data conditions is an error: the body of
    [calculate_uptime_downtime] returns the pair (0, 0) without raising
    - for every window of a store without any sample, whose report row is
      then zero in its six fields;
    - for a window that contains none of the samples of the store;
    - for every window of a store whose samples all fall outside business
      hours. *)
Theorem empty_data_gives_zero (db : Session) (store_id : string)
  (MAX_TIMESTAMP : option datetime) (time_period : string) :
  status_up db = true ->
  let samples_of_store (P : StoreStatus.t -> Prop) :=
    forall r, In r (store_status db) -> StoreStatus.store_id r = store_id -> P r in
  let zero :=
    calculate_uptime_downtime_body tzdata store_id db MAX_TIMESTAMP time_period
    = Ok (0%Q, 0%Q) in
  (samples_of_store (fun _ => False) ->
   zero
   /\ report_row tzdata db MAX_TIMESTAMP store_id
      = mk_row store_id (round2 0) (round2 0) (round2 0) (round2 0) (round2 0) (round2 0)
   /\ (round2 0 == 0)%Q)
  /\ (forall now delta,
        MAX_TIMESTAMP = Some now ->
        max_timestamp (store_status db) = Some now ->
        period_delta time_period = Some delta ->
        samples_of_store
          (fun r => ~ (now - delta <= StoreStatus.timestamp_utc r <= now)) ->
        zero)
  /\ (samples_of_store
        (fun r => is_store_open tzdata store_id (StoreStatus.timestamp_utc r) db = false) ->
      zero).
Proof.
  intros Hup samples_of_store zero.
  destruct (query_status db store_id) as [records | e] eqn:Hquery;
    [| unfold query_status in Hquery; rewrite Hup in Hquery; discriminate].
  split; [| split].
  - intros Hnone.
    assert (Hrecords : records = []).
    { destruct records as [| r records]; [reflexivity |].
      destruct (query_status_In db store_id _ r Hquery (or_introl eq_refl)) as [Hin Hid].
      destruct (Hnone r Hin Hid). }
    subst records.
    assert (Hzero : forall M p,
               calculate_uptime_downtime_body tzdata store_id db M p = Ok (0%Q, 0%Q)).
    { intros M p. apply calculate_body_of_none.
      apply (window_minutes_no_business_hours_records tzdata store_id db M p [] Hquery).
      reflexivity. }
    split; [apply Hzero |].
    split; [| reflexivity].
    unfold report_row, calculate_uptime_downtime. rewrite !Hzero. reflexivity.
  - intros now delta -> Hmax Hdelta Houtside.
    apply calculate_body_of_none.
    rewrite (window_minutes_unfold tzdata store_id db now delta time_period records
               Hquery Hdelta).
    replace (period_records (now - delta)
               (business_hours_records tzdata store_id db records)) with
      (@nil StoreStatus.t); [reflexivity |].
    symmetry. apply filter_nil_iff. intros r Hr.
    apply filter_In in Hr. destruct Hr as [Hr _].
    destruct (query_status_In db store_id records r Hquery Hr) as [Hin Hid].
    pose proof (max_timestamp_bound _ _ r Hmax Hin) as Hle.
    pose proof (Houtside r Hin Hid) as Hout.
    cbv beta in Hout. rewrite Z.geb_leb. apply Z.leb_gt. lia.
  - intros Hclosed.
    apply calculate_body_of_none.
    apply (window_minutes_no_business_hours_records tzdata store_id db MAX_TIMESTAMP
             time_period records Hquery).
    apply filter_nil_iff. intros r Hr.
    destruct (query_status_In db store_id records r Hquery Hr) as [Hin Hid].
    exact (Hclosed r Hin Hid).
Qed.

(** C10. The window filter keeps exactly the samples whose timestamp is
    at least the window start, with no test against the window end; when
    the reference instant is the largest timestamp of the data set, what it
    keeps of the samples of a store is what lies in the closed window
    [now - delta, now]. *)
Theorem window_filter_is_closed_window :
  (forall (start_time : datetime) (records : list StoreStatus.t) (r : StoreStatus.t),
      In r (period_records start_time records)
      <-> In r records /\ start_time <= StoreStatus.timestamp_utc r)
  /\ (forall (db : Session) (store_id : string) (now delta : datetime)
             (time_period : string) (records : list StoreStatus.t),
        max_timestamp (store_status db) = Some now ->
        period_delta time_period = Some delta ->
        query_status db store_id = Ok records ->
        period_records (now - delta)
          (business_hours_records tzdata store_id db records)
        = filter (fun r => (now - delta <=? StoreStatus.timestamp_utc r)
                           && (StoreStatus.timestamp_utc r <=? now))
            (business_hours_records tzdata store_id db records)).
Proof.
  split.
  - intros start_time records r. unfold period_records.
    rewrite filter_In, Z.geb_leb, Z.leb_le. reflexivity.
  - intros db store_id now delta time_period records Hmax _ Hquery.
    unfold period_records. apply filter_ext_in. intros r Hr.
    apply filter_In in Hr. destruct Hr as [Hr _].
    destruct (query_status_In db store_id records r Hquery Hr) as [Hin _].
    pose proof (max_timestamp_bound _ _ r Hmax Hin) as Hle.
    rewrite Z.geb_leb. apply Z.leb_le in Hle. rewrite Hle, andb_true_r. reflexivity.
Qed.

End EmptyData.

(** Store Q of the quiet data set in the hour window: its only sample is
    eight hours old. *)
Lemma empty_data_gives_zero_witness :
  status_up quiet_db = true
  /\ max_timestamp (store_status quiet_db) = Some (monday 17 0)
  /\ period_delta "hour" = Some (timedelta_hours 1)
  /\ calculate_uptime_downtime_body small_tzdata "Q" quiet_db (Some (monday 17 0)) "hour"
     = Ok (0%Q, 0%Q).
Proof.
  split; [reflexivity |].
  split; [reflexivity |].
  split; [reflexivity |].
  destruct (empty_data_gives_zero small_tzdata quiet_db "Q" (Some (monday 17 0)) "hour"
              eq_refl) as (_ & Hwindow & _).
  apply (Hwindow (monday 17 0) (timedelta_hours 1) eq_refl eq_refl eq_refl).
  intros r Hin Hid.
  destruct Hin as [<- | [<- | []]].
  - vm_compute. intros [H _]. apply H. reflexivity.
  - discriminate Hid.
Defined.

(** The scenario in the hour window: of the three samples of S, the one at
    16:00 is kept. *)
Lemma window_filter_is_closed_window_witness :
  max_timestamp (store_status scenario_db) = Some (monday 17 0)
  /\ period_delta "hour" = Some (timedelta_hours 1)
  /\ period_records (monday 17 0 - timedelta_hours 1)
       (business_hours_records small_tzdata "S" scenario_db
          [StoreStatus.mk "S" (monday 9 0) "active";
           StoreStatus.mk "S" (monday 12 0) "active";
           StoreStatus.mk "S" (monday 16 0) "inactive"])
     = filter (fun r => (monday 17 0 - timedelta_hours 1 <=? StoreStatus.timestamp_utc r)
                        && (StoreStatus.timestamp_utc r <=? monday 17 0))
         (business_hours_records small_tzdata "S" scenario_db
            [StoreStatus.mk "S" (monday 9 0) "active";
             StoreStatus.mk "S" (monday 12 0) "active";
             StoreStatus.mk "S" (monday 16 0) "inactive"]).
Proof.
  split; [reflexivity |].
  split; [reflexivity |].
  exact (proj2 (window_filter_is_closed_window small_tzdata) scenario_db "S"
           (monday 17 0) (timedelta_hours 1) "hour" _ eq_refl eq_refl eq_refl).
Defined.

(** ** Units and rounding (C8) *)

Lemma round_half_even_near (x : Q) :
  (Qabs (inject_Z (round_half_even x) - x) <= 1 # 2)%Q.
Proof.
  unfold round_half_even.
  pose proof (Qfloor_le x) as Hlo.
  pose proof (Qlt_floor x) as Hhi.
  rewrite inject_Z_plus in Hhi. change (inject_Z 1) with 1%Q in Hhi.
  apply Qabs_Qle_condition.
  destruct (x - inject_Z (Qfloor x) ?= 1 # 2)%Q eqn:Hcmp.
  - apply Qeq_alt in Hcmp.
    destruct (Z.even (Qfloor x));
      [| rewrite inject_Z_plus; change (inject_Z 1) with 1%Q]; split; lra.
  - apply Qlt_alt in Hcmp. split; lra.
  - apply Qgt_alt in Hcmp. rewrite inject_Z_plus. change (inject_Z 1) with 1%Q.
    split; lra.
Qed.

Lemma round2_near (x : Q) :
  exists k : Z, round2 x = (inject_Z k / 100)%Q /\ (Qabs (round2 x - x) <= 1 # 200)%Q.
Proof.
  exists (round_half_even (x * 100)). split; [reflexivity |].
  unfold round2.
  pose proof (round_half_even_near (x * 100)) as H.
  apply Qabs_Qle_condition in H. apply Qabs_Qle_condition.
  unfold Qdiv. change (/ 100)%Q with (1 # 100)%Q.
  destruct H as [H1 H2]. split; lra.
Qed.

(** C8. The hour-window pair is the pair of minute values as computed;
    the day-window and week-window pairs are the minute values divided by
    60; each of the six fields of the row is the rounding to two decimals of
    the corresponding value, taken on its own. *)
Theorem units_and_rounding
  (tzdata : string -> option (datetime -> Z))
  (db : Session) (MAX_TIMESTAMP : option datetime) (store_id : string) :
  let minutes := window_minutes tzdata store_id db MAX_TIMESTAMP in
  let calc := calculate_uptime_downtime tzdata store_id db MAX_TIMESTAMP in
  (forall u d, minutes "hour" = Ok (Some (u, d)) -> calc "hour" = (u, d))
  /\ (forall u d, minutes "day" = Ok (Some (u, d)) -> calc "day" = (u / 60, d / 60)%Q)
  /\ (forall u d, minutes "week" = Ok (Some (u, d)) -> calc "week" = (u / 60, d / 60)%Q)
  /\ report_row tzdata db MAX_TIMESTAMP store_id
     = mk_row store_id
         (round2 (fst (calc "hour"))) (round2 (fst (calc "day")))
         (round2 (fst (calc "week")))
         (round2 (snd (calc "hour"))) (round2 (snd (calc "day")))
         (round2 (snd (calc "week")))
  /\ (forall x : Q,
        exists k : Z, round2 x = (inject_Z k / 100)%Q
                      /\ (Qabs (round2 x - x) <= 1 # 200)%Q).
Proof.
  intros minutes calc.
  repeat split.
  - intros u d H. unfold calc. rewrite calculate_of_window_minutes.
    fold minutes. rewrite H. reflexivity.
  - intros u d H. unfold calc. rewrite calculate_of_window_minutes.
    fold minutes. rewrite H. reflexivity.
  - intros u d H. unfold calc. rewrite calculate_of_window_minutes.
    fold minutes. rewrite H. reflexivity.
  - unfold report_row. fold calc.
    destruct (calc "hour"), (calc "day"), (calc "week"). reflexivity.
  - exact round2_near.
Qed.

(** The scenario: the hour window is reported in minutes, and the 420
    minutes of uptime of the day window are reported as 7 hours. *)
Lemma units_and_rounding_witness :
  (window_minutes small_tzdata "S" scenario_db scenario_now "hour"
   = Ok (Some (0%Q, inject_Z 480 - 0)%Q)
   /\ calculate_uptime_downtime small_tzdata "S" scenario_db scenario_now "hour"
      = (0%Q, inject_Z 480 - 0)%Q)
  /\ exists u d,
       window_minutes small_tzdata "S" scenario_db scenario_now "day" = Ok (Some (u, d))
       /\ (u == 420)%Q
       /\ calculate_uptime_downtime small_tzdata "S" scenario_db scenario_now "day"
          = (u / 60, d / 60)%Q.
Proof.
  destruct (units_and_rounding small_tzdata scenario_db scenario_now "S")
    as (Hhour & Hday & _).
  split.
  - split; [reflexivity |]. apply Hhour. reflexivity.
  - eexists. eexists. split; [vm_compute; reflexivity |].
    split; [reflexivity |]. apply Hday. vm_compute. reflexivity.
Defined.

(** ** Provider failures (C7) *)

Lemma date_of_mono (t t' : datetime) : t <= t' -> date_of t <= date_of t'.
Proof.
  intros H. unfold date_of.
  assert (t / us_per_day <= t' / us_per_day)
    by (apply Z.div_le_mono; [reflexivity | exact H]).
  lia.
Qed.





(** ** The end-to-end scenario (C1) *)

(** C1, amended.  In the scenario the reference instant is Monday 17:00.
    The hour window starts and ends on that Monday, so its business minutes
    are the 480 minutes of the whole Monday schedule: uptime 0 minutes,
    downtime 480 minutes.  The day window starts on the Sunday, which has no
    entry, so its business minutes are 1440 + 480 = 1920: uptime minutes
    420, that is uptime 7 hours, and downtime (1920 - 420) / 60 = 25
    hours. *)
Theorem scenario_report :
  let now := monday 17 0 in
  let calc := calculate_uptime_downtime small_tzdata "S" scenario_db scenario_now in
  scenario_now = Some now
  /\ business_minutes_while scenario_db "S"
       (date_of (now - timedelta_hours 1)) (date_of now) 0 = Ok 480
  /\ pair_eq (calc "hour") (0, 480)%Q
  /\ business_minutes_while scenario_db "S"
       (date_of (now - timedelta_days 1)) (date_of now) 0 = Ok 1920
  /\ (exists u d,
        window_minutes small_tzdata "S" scenario_db scenario_now "day" = Ok (Some (u, d))
        /\ (u == 420)%Q /\ (d == 1500)%Q)
  /\ pair_eq (calc "day") (7, 25)%Q.
Proof.
  cbv zeta.
  split; [reflexivity |].
  split; [reflexivity |].
  split; [split; vm_compute; reflexivity |].
  split; [reflexivity |].
  split.
  - eexists. eexists. split; [vm_compute; reflexivity |]. split; reflexivity.
  - split; vm_compute; reflexivity.
Qed.

(** The figures of the specification's scenario are not those of the
    code: the hour window
    has 480 business minutes and 480 minutes of downtime, not 60, and the
    day window has 1920 business minutes and 25 hours of downtime, not 480
    and 1. *)
Lemma scenario_downtime_is_not_as_claimed :
  let now := monday 17 0 in
  let calc := calculate_uptime_downtime small_tzdata "S" scenario_db scenario_now in
  scenario_now = Some now
  /\ ~ (snd (calc "hour") == 60)%Q
  /\ business_minutes_while scenario_db "S"
       (date_of (now - timedelta_hours 1)) (date_of now) 0 <> Ok 60
  /\ ~ (snd (calc "day") == 1)%Q
  /\ business_minutes_while scenario_db "S"
       (date_of (now - timedelta_days 1)) (date_of now) 0 <> Ok 480.
Proof.
  cbv zeta.
  split; [reflexivity |].
  split; [vm_compute; discriminate |].
  split; [vm_compute; discriminate |].
  split; [vm_compute; discriminate |].
  vm_compute; discriminate.
Qed.

(** ** Schedule times *)

Lemma is_digit_val (c : ascii) : is_digit c = true -> 0 <= digit_val c <= 9.
Proof.
  unfold is_digit, digit_val. intros H.
  apply andb_true_iff in H. destruct H as [H1 H2].
  apply Z.leb_le in H1, H2. lia.
Qed.

Lemma digit_upto_val (k : Z) (c : ascii) :
  digit_upto k c = true -> 0 <= digit_val c <= k.
Proof.
  unfold digit_upto. intros H. apply andb_true_iff in H. destruct H as [H1 H2].
  apply is_digit_val in H1. apply Z.leb_le in H2. lia.
Qed.

(** Splitting [Some (v, r) = Some (m, rest)] with [v] kept as it is. *)
Lemma some_pair_inv {A B : Type} (v m : A) (r rest : B) :
  Some (v, r) = Some (m, rest) -> m = v /\ rest = r.
Proof. intros H. injection H as <- <-. split; reflexivity. Qed.

Lemma match_M_range (s rest : list ascii) (m : Z) :
  match_M s = Some (m, rest) ->
  0 <= m <= 59
  /\ (List.length rest + 1 <= List.length s <= List.length rest + 2)%nat.
Proof.
  unfold match_M. destruct s as [| c [| d s']].
  - discriminate.
  - destruct (is_digit c) eqn:Hc; [| discriminate].
    intros Heq. apply some_pair_inv in Heq. destruct Heq as [-> ->].
    apply is_digit_val in Hc. simpl (List.length _). lia.
  - destruct (digit_upto 5 c && is_digit d) eqn:Hcd.
    + intros Heq. apply some_pair_inv in Heq. destruct Heq as [-> ->].
      apply andb_true_iff in Hcd. destruct Hcd as [Hc Hd].
      apply digit_upto_val in Hc. apply is_digit_val in Hd.
      simpl (List.length _). lia.
    + destruct (is_digit c) eqn:Hc; [| discriminate].
      intros Heq. apply some_pair_inv in Heq. destruct Heq as [-> ->].
      apply is_digit_val in Hc. simpl (List.length _). lia.
Qed.

Lemma pair_inv {A B : Type} (v h : A) (r rest : B) :
  (v, r) = (h, rest) -> h = v /\ rest = r.
Proof. intros H. injection H as <- <-. split; reflexivity. Qed.

Lemma match_H_alternatives_range (s rest : list ascii) (h : Z) :
  In (h, rest) (match_H_alternatives s) ->
  0 <= h <= 23
  /\ (List.length rest + 1 <= List.length s <= List.length rest + 2)%nat.
Proof.
  unfold match_H_alternatives. intros Hin.
  apply in_app_or in Hin. destruct Hin as [Hin | Hin];
    [| apply in_app_or in Hin; destruct Hin as [Hin | Hin]].
  - destruct s as [| c [| d s']]; try contradiction.
    destruct ((digit_val c =? 2) && digit_upto 3 d) eqn:Hcd; [| contradiction].
    destruct Hin as [Heq | []]. apply pair_inv in Heq. destruct Heq as [-> ->].
    apply andb_true_iff in Hcd. destruct Hcd as [_ Hd].
    apply digit_upto_val in Hd. simpl (List.length _). lia.
  - destruct s as [| c [| d s']]; try contradiction.
    destruct (digit_upto 1 c && is_digit d) eqn:Hcd; [| contradiction].
    destruct Hin as [Heq | []]. apply pair_inv in Heq. destruct Heq as [-> ->].
    apply andb_true_iff in Hcd. destruct Hcd as [Hc Hd].
    apply digit_upto_val in Hc. apply is_digit_val in Hd.
    simpl (List.length _). lia.
  - destruct s as [| c s']; try contradiction.
    destruct (is_digit c) eqn:Hc; [| contradiction].
    destruct Hin as [Heq | []]. apply pair_inv in Heq. destruct Heq as [-> ->].
    apply is_digit_val in Hc. simpl (List.length _). lia.
Qed.

Lemma match_colon_M_range (h : Z) (s rest : list ascii) (h' m : Z) :
  match_colon_M h s = Some (h', m, rest) ->
  h' = h /\ 0 <= m <= 59
  /\ (List.length rest + 2 <= List.length s <= List.length rest + 3)%nat.
Proof.
  unfold match_colon_M. destruct s as [| c s']; [discriminate |].
  destruct (Ascii.eqb c ":"); [| discriminate].
  destruct (match_M s') as [[m' rest'] |] eqn:HM; [| discriminate].
  intros Heq. injection Heq as <- <- <-.
  apply match_M_range in HM. simpl (List.length _). lia.
Qed.

Lemma first_match_In (alts : list (Z * list ascii)) (r : Z * Z * list ascii) :
  first_match alts = Some r ->
  exists h rest, In (h, rest) alts /\ match_colon_M h rest = Some r.
Proof.
  induction alts as [| [h rest] alts IH]; cbn [first_match]; [discriminate |].
  destruct (match_colon_M h rest) as [r' |] eqn:Hm.
  - intros [= <-]. exists h, rest. split; [left; reflexivity | exact Hm].
  - intros H. destruct (IH H) as (h' & rest' & Hin & Hm').
    exists h', rest'. split; [right; exact Hin | exact Hm'].
Qed.

Lemma length_chars (s : string) : List.length (chars s) = String.length s.
Proof. induction s as [| c s IH]; cbn; [reflexivity | rewrite IH; reflexivity]. Qed.

Lemma strptime_HM_hm_time (s : string) (t : time) :
  strptime_HM s = Ok t -> hm_time t /\ (3 <= String.length s <= 5)%nat.
Proof.
  unfold strptime_HM.
  destruct (first_match (match_H_alternatives (chars s))) as [[[h m] rest] |] eqn:Hfm;
    [| discriminate].
  destruct rest as [| c rest]; [| discriminate].
  intros [= <-].
  destruct (first_match_In _ _ Hfm) as (h' & rest' & Hin & Hm).
  apply match_H_alternatives_range in Hin.
  apply match_colon_M_range in Hm. destruct Hm as (-> & Hmin & Hlen).
  rewrite length_chars in Hin. simpl (List.length _) in Hlen.
  unfold hm_time. cbn [hour minute second microsecond]. lia.
Qed.

(** Every HH:MM of the day is read back. *)
Lemma strptime_HM_format_all :
  forallb (fun h =>
    forallb (fun m =>
      match strptime_HM (format_HM (Z.of_nat h) (Z.of_nat m)) with
      | Ok t => (hour t =? Z.of_nat h) && (minute t =? Z.of_nat m)
                && (second t =? 0) && (microsecond t =? 0)
      | Raise _ => false
      end) (seq 0 60)) (seq 0 24) = true.
Proof. vm_compute. reflexivity. Qed.

(** X1. [strptime] with the format [%H:%M] accepts a schedule string only
    if it has 3 to 5 characters, and then yields an hour from 0 to 23 and a
    minute from 0 to 59 with no seconds; a string with seconds such as
    HH:MM:SS is rejected.  Every hour and minute of the day written as
    HH:MM is read back as such. *)
Theorem strptime_HM_accepts :
  (forall (s : string) (t : time),
      strptime_HM s = Ok t -> hm_time t /\ (3 <= String.length s <= 5)%nat)
  /\ (forall s : string, (5 < String.length s)%nat -> strptime_HM s = Raise ValueError)
  /\ (forall h m : Z, 0 <= h <= 23 -> 0 <= m <= 59 ->
        strptime_HM (format_HM h m) = Ok (mk_time h m 0 0)).
Proof.
  split; [exact strptime_HM_hm_time | split].
  - intros s Hlen. destruct (strptime_HM s) as [t | e] eqn:Hs.
    + apply strptime_HM_hm_time in Hs. lia.
    + destruct e; try reflexivity;
        unfold strptime_HM in Hs;
        destruct (first_match (match_H_alternatives (chars s))) as [[[h m] [| c r]] |];
        discriminate.
  - intros h m Hh Hm.
    pose proof strptime_HM_format_all as Hall.
    rewrite forallb_forall in Hall.
    specialize (Hall (Z.to_nat h)). rewrite forallb_forall in Hall.
    assert (Hin_h : In (Z.to_nat h) (seq 0 24)) by (apply in_seq; lia).
    assert (Hin_m : In (Z.to_nat m) (seq 0 60)) by (apply in_seq; lia).
    specialize (Hall Hin_h (Z.to_nat m) Hin_m).
    rewrite !Z2Nat.id in Hall by lia.
    destruct (strptime_HM (format_HM h m)) as [[h' m' s' u'] | e]; [| discriminate].
    cbn [hour minute second microsecond] in Hall.
    repeat (apply andb_true_iff in Hall; destruct Hall as [Hall ?]).
    apply Z.eqb_eq in Hall. 
    repeat match goal with H : (_ =? _) = true |- _ => apply Z.eqb_eq in H end.
    subst. reflexivity.
Qed.

Lemma strptime_HM_accepts_witness :
  strptime_HM "09:05" = Ok (mk_time 9 5 0 0)
  /\ hm_time (mk_time 9 5 0 0)
  /\ strptime_HM "09:05:00" = Raise ValueError
  /\ strptime_HM (format_HM 23 59) = Ok (mk_time 23 59 0 0).
Proof.
  destruct strptime_HM_accepts as (Hrange & Hlong & Hformat).
  split; [reflexivity |].
  split; [exact (proj1 (Hrange "09:05" (mk_time 9 5 0 0) eq_refl)) |].
  split; [apply Hlong; cbn; lia |].
  apply Hformat; lia.
Defined.

(** ** Budgets and windows *)

Lemma time_gtb_minute_of_day (s e : time) :
  hm_time s -> hm_time e ->
  time_gtb s e = (minute_of_day s >? minute_of_day e).
Proof.
  intros (Hsh & Hsm & Hss & Hsu) (Heh & Hem & Hes & Heu).
  unfold time_gtb, time_cmp, minute_of_day. rewrite Hss, Hes, Hsu, Heu.
  cbn [Z.compare lex].
  destruct (Z.compare_spec (hour s) (hour e)) as [Hh | Hh | Hh]; cbn [lex].
  - rewrite Hh.
    destruct (Z.compare_spec (minute s) (minute e)) as [Hm | Hm | Hm]; cbn [lex];
      symmetry; try (apply Z.gtb_lt; lia); rewrite Z.gtb_ltb; apply Z.ltb_ge; lia.
  - symmetry. rewrite Z.gtb_ltb. apply Z.ltb_ge. lia.
  - symmetry. apply Z.gtb_lt. lia.
Qed.

Lemma ok_inv {A : Type} (a m : A) : Ok a = Ok m -> m = a.
Proof. intros H. injection H as <-. reflexivity. Qed.

Lemma day_minutes_bounds (db : Session) (store_id : string) (d : date) (m : Z) :
  day_minutes db store_id d = Ok m -> 0 <= m <= 1440.
Proof.
  unfold day_minutes.
  destruct (query_hours db store_id (weekday d)) as [[h |] | e]; cbn [bind];
    [| intros [= <-]; lia | discriminate].
  destruct (strptime_HM (StoreHours.start_time_local h)) as [s | e] eqn:Hs;
    cbn [bind]; [| discriminate].
  destruct (strptime_HM (StoreHours.end_time_local h)) as [t | e] eqn:Ht;
    cbn [bind]; [| discriminate].
  apply strptime_HM_hm_time in Hs, Ht. destruct Hs as [Hs _], Ht as [Ht _].
  rewrite (time_gtb_minute_of_day s t Hs Ht).
  unfold minute_of_day.
  destruct Hs as (? & ? & _), Ht as (? & ? & _).
  destruct (hour s * 60 + minute s >? hour t * 60 + minute t) eqn:Hcmp;
    intros Heq; apply ok_inv in Heq; subst m.
  - apply Z.gtb_lt in Hcmp. lia.
  - rewrite Z.gtb_ltb in Hcmp. apply Z.ltb_ge in Hcmp. lia.
Qed.

Lemma business_minutes_while_bounds (db : Session) (store_id : string)
  (last : date) (n : nat) :
  forall (current_date : date) (total bm : Z),
    Z.to_nat (last - current_date + 1) = n ->
    current_date <= last + 1 ->
    business_minutes_while db store_id current_date last total = Ok bm ->
    total <= bm <= total + 1440 * (last - current_date + 1).
Proof.
  induction n as [| k IH]; intros current_date total bm Hn Hrange;
    rewrite business_minutes_while_equation_1;
    destruct (Z_le_gt_dec current_date last) as [Hle | Hgt]; try lia.
  - intros Heq. injection Heq as <-. lia.
  - destruct (day_minutes db store_id current_date) as [m | e] eqn:Hday;
      [| discriminate].
    apply day_minutes_bounds in Hday.
    intros Hrun. apply IH in Hrun; lia.
Qed.

(** X2. The minutes counted for one calendar date are between 0 and 1440,
    whatever the schedule row says, and the business minutes of a window are
    between 0 and 1440 times the number of dates it touches. *)
Theorem business_minutes_bounds (db : Session) (store_id : string) :
  (forall (d : date) (m : Z), day_minutes db store_id d = Ok m -> 0 <= m <= 1440)
  /\ (forall (first last : date) (bm : Z),
        first <= last + 1 ->
        business_minutes_while db store_id first last 0 = Ok bm ->
        0 <= bm <= 1440 * (last - first + 1)).
Proof.
  split; [exact (day_minutes_bounds db store_id) |].
  intros first last bm Hrange Hrun.
  apply (business_minutes_while_bounds db store_id last
           (Z.to_nat (last - first + 1)) first 0 bm eq_refl Hrange) in Hrun.
  lia.
Qed.

Lemma business_minutes_bounds_witness :
  day_minutes overnight_db "O" (date_of (monday 0 0)) = Ok 480
  /\ 0 <= 480 <= 1440
  /\ date_of (monday 16 0) <= date_of (monday 17 0) + 1
  /\ business_minutes_while scenario_db "S"
       (date_of (monday 16 0)) (date_of (monday 17 0)) 0 = Ok 480
  /\ 0 <= 480 <= 1440 * (date_of (monday 17 0) - date_of (monday 16 0) + 1).
Proof.
  destruct (business_minutes_bounds overnight_db "O") as [Hday _].
  destruct (business_minutes_bounds scenario_db "S") as [_ Hwindow].
  split; [reflexivity |].
  split; [exact (Hday (date_of (monday 0 0)) 480 eq_refl) |].
  split; [vm_compute; discriminate |].
  split; [reflexivity |].
  apply (Hwindow (date_of (monday 16 0)) (date_of (monday 17 0)) 480).
  - vm_compute. discriminate.
  - reflexivity.
Defined.

Lemma date_of_minus_days (t k : Z) :
  date_of (t - k * us_per_day) = date_of t - k.
Proof.
  unfold date_of.
  replace (t - k * us_per_day) with (t + (- k) * us_per_day) by lia.
  rewrite Z.div_add by (unfold us_per_day, us_per_hour, us_per_minute, us_per_second; lia).
  lia.
Qed.

Lemma weekday_minus_week (d : Z) : weekday (d - 7) = weekday d.
Proof. unfold weekday. replace (d - 7 + 6) with (d + 6 + (-1) * 7) by lia.
  apply Z.mod_add. lia. Qed.

Lemma date_of_minus_hour (t : Z) :
  date_of t - 1 <= date_of (t - timedelta_hours 1) <= date_of t.
Proof.
  split.
  - rewrite <- (date_of_minus_days t 1). apply date_of_mono.
    unfold timedelta_hours, us_per_day, us_per_hour, us_per_minute, us_per_second. lia.
  - apply date_of_mono.
    unfold timedelta_hours, us_per_hour, us_per_minute, us_per_second. lia.
Qed.

Lemma window_dates_eq (now : Z) :
  date_of (now - timedelta_days 1) = date_of now - 1
  /\ date_of (now - timedelta_weeks 1) = date_of now - 7.
Proof.
  split.
  - unfold timedelta_days. apply date_of_minus_days.
  - unfold timedelta_weeks. replace (1 * 7 * us_per_day) with (7 * us_per_day) by lia.
    apply date_of_minus_days.
Qed.

Lemma window_dates_hour (now : Z) :
  date_of (now - timedelta_hours 1) = date_of now
  \/ date_of (now - timedelta_hours 1) = date_of now - 1.
Proof.
  pose proof (date_of_minus_hour now). lia.
Qed.

Lemma date_of_hour_before (now : Z) :
  (us_per_hour <= now mod us_per_day
   /\ date_of (now - timedelta_hours 1) = date_of now)
  \/ (now mod us_per_day < us_per_hour
      /\ date_of (now - timedelta_hours 1) = date_of now - 1).
Proof.
  unfold date_of, timedelta_hours, us_per_day, us_per_hour, us_per_minute,
    us_per_second.
  change (24 * (60 * (60 * 1000000))) with 86400000000.
  change (1 * (60 * (60 * 1000000))) with 3600000000.
  change (60 * (60 * 1000000)) with 3600000000.
  pose proof (Z.div_mod now 86400000000 ltac:(lia)) as Hnow.
  pose proof (Z.mod_pos_bound now 86400000000 ltac:(lia)) as Hr.
  destruct (Z_lt_ge_dec (now mod 86400000000) 3600000000) as [Hlt | Hge].
  - right. split; [exact Hlt |].
    assert ((now - 3600000000) / 86400000000 = now / 86400000000 - 1); [| lia].
    symmetry. apply (Z.div_unique _ _ _ (now mod 86400000000 + 82800000000)); lia.
  - left. split; [lia |].
    assert ((now - 3600000000) / 86400000000 = now / 86400000000); [| lia].
    symmetry. apply (Z.div_unique _ _ _ (now mod 86400000000 - 3600000000)); lia.
Qed.

Lemma business_minutes_while_for_each (db : Session) (store_id : string)
  (last : date) (n : nat) :
  forall (current_date : date) (total : Z),
    Z.to_nat (last - current_date + 1) = n ->
    business_minutes_while db store_id current_date last total
    = for_each (add_day_minutes db store_id) (dates_between current_date last) total.
Proof.
  induction n as [| k IH]; intros current_date total Hn;
    rewrite business_minutes_while_equation_1;
    destruct (Z_le_gt_dec current_date last) as [Hle | Hgt]; try lia.
  - rewrite dates_between_empty by lia. reflexivity.
  - rewrite (dates_between_cons current_date last Hle).
    cbn [for_each]. unfold add_day_minutes at 1.
    destruct (day_minutes db store_id current_date) as [m | e]; cbn [bind];
      [| reflexivity].
    apply IH. lia.
Qed.

Lemma dates_between_two (d : Z) : dates_between (d - 1) d = [d - 1; d].
Proof.
  unfold dates_between.
  replace (Z.to_nat (d - (d - 1) + 1)) with 2%nat by lia.
  cbn [dates_from]. repeat f_equal; lia.
Qed.

Lemma dates_between_one (d : Z) : dates_between d d = [d].
Proof.
  unfold dates_between.
  replace (Z.to_nat (d - d + 1)) with 1%nat by lia.
  reflexivity.
Qed.

Lemma dates_between_eight (d : Z) :
  dates_between (d - 7) d = [d - 7; d - 6; d - 5; d - 4; d - 3; d - 2; d - 1; d].
Proof.
  unfold dates_between.
  replace (Z.to_nat (d - (d - 7) + 1)) with 8%nat by lia.
  cbn [dates_from].
  replace (d - 7 + 1) with (d - 6) by lia.
  replace (d - 6 + 1) with (d - 5) by lia.
  replace (d - 5 + 1) with (d - 4) by lia.
  replace (d - 4 + 1) with (d - 3) by lia.
  replace (d - 3 + 1) with (d - 2) by lia.
  replace (d - 2 + 1) with (d - 1) by lia.
  replace (d - 1 + 1) with d by lia.
  reflexivity.
Qed.

(** X3. The date loop of the day window is the lookup of exactly two
    calendar dates, the one before the date of the reference instant and
    that date, in this order and stopping at the first lookup that raises;
    the loop of the week window is the lookup of exactly eight dates, the
    first on the same weekday as the last; the loop of the hour window is
    the lookup of one date, or of two when the reference instant falls in
    the first hour of its date. *)
Theorem window_date_loop (db : Session) (store_id : string) (now : datetime) :
  let visit := fun dates => for_each (add_day_minutes db store_id) dates 0 in
  let today := date_of now in
  business_minutes_while db store_id (date_of (now - timedelta_days 1)) today 0
  = visit [today - 1; today]
  /\ business_minutes_while db store_id (date_of (now - timedelta_weeks 1)) today 0
     = visit [today - 7; today - 6; today - 5; today - 4;
              today - 3; today - 2; today - 1; today]
  /\ weekday (today - 7) = weekday today
  /\ ((us_per_hour <= now mod us_per_day
       /\ business_minutes_while db store_id
            (date_of (now - timedelta_hours 1)) today 0 = visit [today])
      \/ (now mod us_per_day < us_per_hour
          /\ business_minutes_while db store_id
               (date_of (now - timedelta_hours 1)) today 0
             = visit [today - 1; today])).
Proof.
  intros visit today.
  assert (Hloop : forall first,
             business_minutes_while db store_id first today 0
             = visit (dates_between first today))
    by (intros first;
        exact (business_minutes_while_for_each db store_id today
                 (Z.to_nat (today - first + 1)) first 0 eq_refl)).
  destruct (window_dates_eq now) as [Hday Hweek].
  fold today in Hday, Hweek.
  split; [rewrite Hday, Hloop, dates_between_two; reflexivity |].
  split; [rewrite Hweek, Hloop, dates_between_eight; reflexivity |].
  split; [apply weekday_minus_week |].
  destruct (date_of_hour_before now) as [[Hlate Hsame] | [Hearly Hprev]];
    fold today in Hsame || fold today in Hprev.
  - left. split; [exact Hlate |].
    rewrite Hsame, Hloop, dates_between_one. reflexivity.
  - right. split; [exact Hearly |].
    rewrite Hprev, Hloop, dates_between_two. reflexivity.
Qed.

Lemma weekday_range (d : Z) : 0 <= weekday d <= 6.
Proof. unfold weekday. pose proof (Z.mod_pos_bound (d + 6) 7). lia. Qed.

Lemma weekday_succ (d : Z) : weekday (d + 1) = (weekday d + 1) mod 7.
Proof.
  unfold weekday. replace (d + 1 + 6) with (d + 6 + 1) by lia.
  rewrite Z.add_mod_idemp_l by lia. reflexivity.
Qed.

Lemma business_minutes_of_schedule (db : Session) (store_id : string)
  (schedule : Z -> option (time * time)) (first last : date) :
  (forall w, 0 <= w <= 6 -> schedule_entry db store_id w = Ok (schedule w)) ->
  business_minutes_while db store_id first last 0
  = Ok (spec_business_minutes schedule first last).
Proof.
  intros Hsched.
  rewrite (business_minutes_while_sum db store_id schedule last
             (Z.to_nat (last - first + 1)) first 0 eq_refl).
  - reflexivity.
  - intros d _. apply Hsched. apply weekday_range.
Qed.

Lemma spec_business_minutes_two_days (schedule : Z -> option (time * time)) (d : Z) :
  spec_business_minutes schedule (d - 1) d
  = spec_day_budget (schedule (weekday (d - 1))) + spec_day_budget (schedule (weekday d)).
Proof.
  unfold spec_business_minutes, dates_between.
  replace (Z.to_nat (d - (d - 1) + 1)) with 2%nat by lia.
  cbn [dates_from map fold_right].
  replace (d - 1 + 1) with d by lia. lia.
Qed.

Lemma spec_business_minutes_eight_days (schedule : Z -> option (time * time)) (d : Z) :
  spec_business_minutes schedule (d - 7) d
  = spec_week_budget schedule + spec_day_budget (schedule (weekday d)).
Proof.
  unfold spec_business_minutes, dates_between, spec_week_budget.
  replace (Z.to_nat (d - (d - 7) + 1)) with 8%nat by lia.
  cbn [dates_from map fold_right].
  rewrite !weekday_succ, weekday_minus_week.
  pose proof (weekday_range d) as Hw.
  assert (Hcases : weekday d = 0 \/ weekday d = 1 \/ weekday d = 2 \/ weekday d = 3
                   \/ weekday d = 4 \/ weekday d = 5 \/ weekday d = 6) by lia.
  destruct Hcases as [H | [H | [H | [H | [H | [H | H]]]]]]; rewrite H;
    repeat match goal with
           | |- context [(?a + 1) mod 7] =>
               let v := eval vm_compute in ((a + 1) mod 7) in
               change ((a + 1) mod 7) with v
           end;
    lia.
Qed.

(** X4. When every weekday of a store has a well-formed entry or none,
    the business minutes of the day window are the budgets of yesterday's
    and today's weekdays, both in full, and the business minutes of the week
    window are the budgets of the seven weekdays plus, a second time, the
    budget of the weekday of the reference instant. *)
Theorem week_window_counts_a_weekday_twice
  (db : Session) (store_id : string) (schedule : Z -> option (time * time))
  (now : datetime) :
  (forall w, 0 <= w <= 6 -> schedule_entry db store_id w = Ok (schedule w)) ->
  business_minutes_while db store_id
    (date_of (now - timedelta_days 1)) (date_of now) 0
  = Ok (spec_day_budget (schedule (weekday (date_of now - 1)))
        + spec_day_budget (schedule (weekday (date_of now))))
  /\ business_minutes_while db store_id
       (date_of (now - timedelta_weeks 1)) (date_of now) 0
     = Ok (spec_week_budget schedule
           + spec_day_budget (schedule (weekday (date_of now)))).
Proof.
  intros Hsched.
  destruct (window_dates_eq now) as [Hday Hweek].
  rewrite Hday, Hweek.
  rewrite !(business_minutes_of_schedule db store_id schedule) by exact Hsched.
  rewrite spec_business_minutes_two_days, spec_business_minutes_eight_days.
  split; reflexivity.
Qed.

(** The scenario: Monday's 480 minutes are counted twice in the week
    window, on top of six unscheduled days. *)
Lemma week_window_counts_a_weekday_twice_witness :
  let schedule := fun w : Z =>
    if w =? 0 then Some (mk_time 9 0 0 0, mk_time 17 0 0 0) else None in
  spec_week_budget schedule = 6 * 1440 + 480
  /\ weekday (date_of (monday 17 0)) = 0
  /\ business_minutes_while scenario_db "S"
       (date_of (monday 17 0 - timedelta_weeks 1)) (date_of (monday 17 0)) 0
     = Ok (spec_week_budget schedule + 480).
Proof.
  cbv zeta. split; [reflexivity |]. split; [reflexivity |].
  destruct (week_window_counts_a_weekday_twice scenario_db "S"
              (fun w : Z =>
                 if w =? 0 then Some (mk_time 9 0 0 0, mk_time 17 0 0 0) else None)
              (monday 17 0)) as [_ Hweek].
  - intros w Hw.
    assert (Hcases : w = 0 \/ w = 1 \/ w = 2 \/ w = 3 \/ w = 4 \/ w = 5 \/ w = 6) by lia.
    destruct Hcases as [-> | [-> | [-> | [-> | [-> | [-> | ->]]]]]]; reflexivity.
  - exact Hweek.
Defined.

Lemma unscheduled_find (db : Session) (store_id : string) (w : Z) :
  unscheduled db store_id ->
  find (fun r => String.eqb (StoreHours.store_id r) store_id
                 && (StoreHours.day_of_week r =? w)) (store_hours db) = None.
Proof.
  intros Hnone.
  destruct (find _ (store_hours db)) as [h |] eqn:Hfind; [| reflexivity].
  apply find_some in Hfind. destruct Hfind as [Hin Hkey].
  apply andb_true_iff in Hkey. destruct Hkey as [Hid _].
  apply String.eqb_eq in Hid. destruct (Hnone h Hin Hid).
Qed.

Lemma unscheduled_entry (db : Session) (store_id : string) (w : Z) :
  unscheduled db store_id -> hours_up db = true ->
  schedule_entry db store_id w = Ok None.
Proof.
  intros Hnone Hup. unfold schedule_entry, query_hours.
  rewrite Hup, (unscheduled_find db store_id w Hnone). reflexivity.
Qed.

Lemma unscheduled_business_minutes (db : Session) (store_id : string) (now : datetime) :
  unscheduled db store_id -> hours_up db = true ->
  business_minutes_while db store_id
    (date_of (now - timedelta_days 1)) (date_of now) 0 = Ok 2880
  /\ business_minutes_while db store_id
       (date_of (now - timedelta_weeks 1)) (date_of now) 0 = Ok 11520
  /\ (business_minutes_while db store_id
        (date_of (now - timedelta_hours 1)) (date_of now) 0 = Ok 1440
      \/ business_minutes_while db store_id
           (date_of (now - timedelta_hours 1)) (date_of now) 0 = Ok 2880).
Proof.
  intros Hnone Hup.
  assert (Hsched : forall w, 0 <= w <= 6 ->
             schedule_entry db store_id w = Ok ((fun _ : Z => @None (time * time)) w))
    by (intros w _; apply unscheduled_entry; assumption).
  destruct (window_dates_eq now) as [Hday Hweek].
  rewrite Hday, Hweek.
  rewrite !(business_minutes_of_schedule db store_id (fun _ => None)) by exact Hsched.
  rewrite spec_business_minutes_two_days, spec_business_minutes_eight_days.
  split; [reflexivity | split; [reflexivity |]].
  destruct (window_dates_hour now) as [Hsame | Hprev]; rewrite ?Hsame, ?Hprev.
  - left. unfold spec_business_minutes, dates_between.
    replace (Z.to_nat (date_of now - date_of now + 1)) with 1%nat by lia.
    reflexivity.
  - right. rewrite spec_business_minutes_two_days. reflexivity.
Qed.

(** X5. A store without any schedule row is open at every instant,
    whatever its time zone row and whatever the state of the providers.
    With the schedule provider up, each date its window touches counts
    1440 minutes: always 2880 for the day window and 11520 for the week
    window, which is more than the 1440 and 10080 minutes these windows
    last, and 1440 or 2880 for the hour window. *)
Theorem unscheduled_store
  (tzdata : string -> option (datetime -> Z)) (db : Session) (store_id : string) :
  unscheduled db store_id ->
  (forall timestamp_utc, is_store_open tzdata store_id timestamp_utc db = true)
  /\ (hours_up db = true ->
      forall now,
        business_minutes_while db store_id
          (date_of (now - timedelta_days 1)) (date_of now) 0 = Ok 2880
        /\ business_minutes_while db store_id
             (date_of (now - timedelta_weeks 1)) (date_of now) 0 = Ok 11520
        /\ (business_minutes_while db store_id
              (date_of (now - timedelta_hours 1)) (date_of now) 0 = Ok 1440
            \/ business_minutes_while db store_id
                 (date_of (now - timedelta_hours 1)) (date_of now) 0 = Ok 2880)).
Proof.
  intros Hnone. split.
  - intros timestamp_utc. unfold is_store_open, is_store_open_body.
    destruct (query_timezone db store_id) as [rec | e]; cbn [bind]; [| reflexivity].
    destruct (pytz_timezone tzdata _) as [local_tz | e]; cbn [bind]; [| reflexivity].
    unfold query_hours. destruct (hours_up db); [| reflexivity].
    rewrite (unscheduled_find db store_id _ Hnone). reflexivity.
  - intros Hup now. exact (unscheduled_business_minutes db store_id now Hnone Hup).
Qed.

(** Store Q of the quiet data set has no schedule row. *)
Lemma unscheduled_store_witness :
  unscheduled quiet_db "Q"
  /\ is_store_open small_tzdata "Q" (monday 3 0) quiet_db = true
  /\ hours_up quiet_db = true
  /\ business_minutes_while quiet_db "Q"
       (date_of (monday 17 0 - timedelta_weeks 1)) (date_of (monday 17 0)) 0 = Ok 11520.
Proof.
  assert (Hnone : unscheduled quiet_db "Q") by (intros h []).
  destruct (unscheduled_store small_tzdata quiet_db "Q" Hnone) as [Hopen Hminutes].
  split; [exact Hnone |].
  split; [apply Hopen |].
  split; [reflexivity |].
  exact (proj1 (proj2 (Hminutes eq_refl (monday 17 0)))).
Defined.

(** ** Bounds on uptime and downtime *)

Lemma insert_by_timestamp_sorted (r : StoreStatus.t) (l : list StoreStatus.t) :
  StronglySorted by_timestamp l -> StronglySorted by_timestamp (insert_by_timestamp r l).
Proof.
  induction l as [| x l IH]; intros Hsorted; cbn [insert_by_timestamp].
  - constructor; constructor.
  - apply StronglySorted_inv in Hsorted. destruct Hsorted as [Hl Hx].
    destruct (StoreStatus.timestamp_utc r <=? StoreStatus.timestamp_utc x) eqn:Hcmp.
    + apply Z.leb_le in Hcmp. constructor; [constructor; assumption |].
      constructor; [exact Hcmp |].
      rewrite Forall_forall in Hx |- *. intros y Hy.
      specialize (Hx y Hy). unfold by_timestamp in *. lia.
    + apply Z.leb_gt in Hcmp. constructor; [apply IH; exact Hl |].
      rewrite Forall_forall in Hx |- *. intros y Hy.
      apply In_insert_by_timestamp in Hy. destruct Hy as [-> | Hy].
      * unfold by_timestamp. lia.
      * exact (Hx y Hy).
Qed.

Lemma order_by_timestamp_sorted (l : list StoreStatus.t) :
  StronglySorted by_timestamp (order_by_timestamp l).
Proof.
  unfold order_by_timestamp. induction l as [| x l IH]; cbn [fold_right].
  - constructor.
  - apply insert_by_timestamp_sorted. exact IH.
Qed.

Lemma filter_sorted (f : StoreStatus.t -> bool) (l : list StoreStatus.t) :
  StronglySorted by_timestamp l -> StronglySorted by_timestamp (filter f l).
Proof.
  induction l as [| x l IH]; intros Hsorted; cbn [filter]; [constructor |].
  apply StronglySorted_inv in Hsorted. destruct Hsorted as [Hl Hx].
  destruct (f x); [| exact (IH Hl)].
  constructor; [exact (IH Hl) |].
  rewrite Forall_forall in Hx |- *. intros y Hy.
  apply filter_In in Hy. exact (Hx y (proj1 Hy)).
Qed.

Lemma sorted_chronological (l : list StoreStatus.t) (window_end : datetime) :
  StronglySorted by_timestamp l ->
  (forall r, In r l -> StoreStatus.timestamp_utc r <= window_end) ->
  chronological l window_end.
Proof.
  induction l as [| s rest IH]; intros Hsorted Hend; cbn [chronological]; [exact I |].
  apply StronglySorted_inv in Hsorted. destruct Hsorted as [Hrest Hs].
  split.
  - destruct rest as [| s' rest'].
    + apply Hend. left. reflexivity.
    + rewrite Forall_forall in Hs. apply (Hs s'). left. reflexivity.
  - apply IH; [exact Hrest |]. intros r Hr. apply Hend. right. exact Hr.
Qed.

Lemma inject_Z_sub (x y : Z) : inject_Z (x - y) = (inject_Z x - inject_Z y)%Q.
Proof.
  unfold Z.sub, Qminus. rewrite inject_Z_plus, inject_Z_opp. reflexivity.
Qed.

Lemma minutes_between_linear (t t' : Z) :
  (minutes_between t t' == (inject_Z t' - inject_Z t) * (1 # 60000000))%Q.
Proof.
  unfold minutes_between, total_seconds, Qdiv.
  rewrite inject_Z_sub.
  change (/ inject_Z us_per_second)%Q with (1 # 1000000)%Q.
  change (/ 60)%Q with (1 # 60)%Q.
  ring.
Qed.

Lemma chronological_head (l : list StoreStatus.t) (window_end : Z) :
  chronological l window_end ->
  forall r, In r l -> StoreStatus.timestamp_utc r <= window_end.
Proof.
  induction l as [| a l IH]; intros Hc r Hr; [destruct Hr |].
  cbn [chronological] in Hc. destruct Hc as [Ha Hc].
  destruct Hr as [<- | Hr]; [| exact (IH Hc r Hr)].
  destruct l as [| b l']; [exact Ha |].
  pose proof (IH Hc b (or_introl eq_refl)). lia.
Qed.

Lemma spec_uptime_bounds (l : list StoreStatus.t) (window_end : Z) :
  chronological l window_end ->
  (0 <= spec_uptime l window_end)%Q
  /\ (forall s rest, l = s :: rest ->
        (spec_uptime l window_end
         <= (inject_Z window_end - inject_Z (StoreStatus.timestamp_utc s))
            * (1 # 60000000))%Q).
Proof.
  induction l as [| s rest IH]; intros Hchron.
  - split; [cbn; lra | intros s rest; discriminate].
  - pose proof (chronological_head _ _ Hchron s (or_introl eq_refl)) as Hs.
    cbn [chronological] in Hchron. destruct Hchron as [Hnext Hrest].
    destruct (IH Hrest) as [Hpos Hupper]. clear IH.
    rewrite Zle_Qle in Hnext, Hs.
    destruct rest as [| s' rest'].
    + pose proof (minutes_between_linear (StoreStatus.timestamp_utc s) window_end)
        as Hlin.
      cbn [spec_uptime] in *.
      split; [| intros s0 rest0 Heq; injection Heq as <- <-];
        destruct (String.eqb (StoreStatus.status s) "active"); lra.
    + pose proof (minutes_between_linear (StoreStatus.timestamp_utc s)
                    (StoreStatus.timestamp_utc s')) as Hlin.
      specialize (Hupper s' rest' eq_refl).
      pose proof (chronological_head _ _ Hrest s' (or_introl eq_refl)) as Hs'.
      rewrite Zle_Qle in Hs'.
      set (tail := spec_uptime (s' :: rest') window_end) in *.
      change (spec_uptime (s :: s' :: rest') window_end)
        with ((if String.eqb (StoreStatus.status s) "active"
               then minutes_between (StoreStatus.timestamp_utc s)
                      (StoreStatus.timestamp_utc s')
               else 0) + tail)%Q.
      split; [| intros s0 rest0 Heq; injection Heq as <- <-];
        destruct (String.eqb (StoreStatus.status s) "active"); lra.
Qed.

Lemma query_status_sorted (db : Session) (store_id : string)
  (records : list StoreStatus.t) :
  query_status db store_id = Ok records -> StronglySorted by_timestamp records.
Proof.
  unfold query_status. destruct (status_up db); [| discriminate].
  intros H. injection H as <-. apply order_by_timestamp_sorted.
Qed.

Section Bounds.

Variable tzdata : string -> option (datetime -> Z).

(** What a window that reaches its end has computed. *)
Lemma window_minutes_inv (store_id : string) (db : Session) (now delta : datetime)
  (time_period : string) (u d : Q) :
  period_delta time_period = Some delta ->
  window_minutes tzdata store_id db (Some now) time_period = Ok (Some (u, d)) ->
  exists records bm,
    query_status db store_id = Ok records
    /\ business_minutes_while db store_id (date_of (now - delta)) (date_of now) 0 = Ok bm
    /\ uptime_loop
         (period_records (now - delta)
            (business_hours_records tzdata store_id db records)) now = Ok u
    /\ d = (inject_Z bm - u)%Q.
Proof.
  intros Hdelta Hwin.
  destruct (query_status db store_id) as [records | e] eqn:Hquery;
    [| unfold window_minutes in Hwin; rewrite Hquery in Hwin; discriminate].
  rewrite (window_minutes_unfold tzdata store_id db now delta time_period records
             Hquery Hdelta) in Hwin.
  destruct (period_records (now - delta)
              (business_hours_records tzdata store_id db records)) as [| r rs] eqn:Hpr;
    [discriminate |].
  destruct (business_minutes_while db store_id (date_of (now - delta)) (date_of now) 0)
    as [bm | e] eqn:Hbm; cbn [bind] in Hwin; [| discriminate].
  destruct (uptime_loop (r :: rs) now) as [u' | e] eqn:Hloop; cbn [bind] in Hwin;
    [| discriminate].
  injection Hwin as <- <-.
  exists records, bm. rewrite ?Hpr, ?Hbm, ?Hloop.
  repeat split; first [reflexivity | assumption].
Qed.

Lemma window_uptime_bounds (store_id : string) (db : Session) (now delta : datetime)
  (time_period : string) (u d : Q) :
  max_timestamp (store_status db) = Some now ->
  period_delta time_period = Some delta ->
  window_minutes tzdata store_id db (Some now) time_period = Ok (Some (u, d)) ->
  (0 <= u <= inject_Z delta * (1 # 60000000))%Q.
Proof.
  intros Hmax Hdelta Hwin.
  destruct (window_minutes_inv store_id db now delta time_period u d Hdelta Hwin)
    as (records & bm & Hquery & _ & Hloop & _).
  set (p_records := period_records (now - delta)
                      (business_hours_records tzdata store_id db records)) in *.
  destruct (uptime_loop_returns p_records now) as (u' & Hloop' & Hu').
  rewrite Hloop in Hloop'. injection Hloop' as <-.
  assert (Hsorted : StronglySorted by_timestamp p_records).
  { unfold p_records, period_records, business_hours_records.
    apply filter_sorted, filter_sorted. exact (query_status_sorted _ _ _ Hquery). }
  assert (Hin : forall r, In r p_records ->
             now - delta <= StoreStatus.timestamp_utc r <= now).
  { intros r Hr. unfold p_records, period_records in Hr.
    apply filter_In in Hr. destruct Hr as [Hr Hge].
    apply filter_In in Hr. destruct Hr as [Hr _].
    destruct (query_status_In db store_id records r Hquery Hr) as [Hdb _].
    pose proof (max_timestamp_bound _ _ r Hmax Hdb).
    rewrite Z.geb_leb in Hge. apply Z.leb_le in Hge. lia. }
  assert (Hchron : chronological p_records now)
    by (apply sorted_chronological; [exact Hsorted | intros r Hr; apply Hin; exact Hr]).
  destruct (spec_uptime_bounds p_records now Hchron) as [Hpos Hupper].
  rewrite Hu'. split; [exact Hpos |].
  destruct p_records as [| s rest] eqn:Hp.
  - cbn [spec_uptime]. pose proof (period_delta_pos _ _ Hdelta) as Hd.
    apply Z.lt_le_incl in Hd. rewrite Zle_Qle in Hd.
    change (inject_Z 0) with 0%Q in Hd. lra.
  - specialize (Hupper s rest eq_refl).
    assert (Hs : now - delta <= StoreStatus.timestamp_utc s)
      by (apply Hin; left; reflexivity).
    rewrite Zle_Qle, inject_Z_sub in Hs. lra.
Qed.

(** X6. When the reference instant is the largest timestamp of the data
    set, the uptime reported for a store is never negative, for any period:
    the samples are taken in order of timestamp and none is later than the
    reference instant, so no gap that is added is negative. *)
Theorem uptime_never_negative (store_id : string) (db : Session) (now : datetime)
  (time_period : string) :
  max_timestamp (store_status db) = Some now ->
  (0 <= fst (calculate_uptime_downtime tzdata store_id db (Some now) time_period))%Q.
Proof.
  intros Hmax.
  rewrite calculate_of_window_minutes.
  destruct (window_minutes tzdata store_id db (Some now) time_period)
    as [[[u d] |] | e] eqn:Hwin; cbn [fst]; try lra.
  destruct (period_delta time_period) as [delta |] eqn:Hdelta.
  - pose proof (window_uptime_bounds store_id db now delta time_period u d
                  Hmax Hdelta Hwin) as Hu.
    unfold convert_units. destruct (String.eqb time_period "hour"); cbn [fst].
    + lra.
    + unfold Qdiv. change (/ 60)%Q with (1 # 60)%Q. lra.
  - unfold window_minutes in Hwin.
    destruct (query_status db store_id) as [[| r records] | e]; cbn [bind] in Hwin;
      try discriminate.
    destruct (business_hours_records tzdata store_id db (r :: records));
      [discriminate |].
    rewrite Hdelta in Hwin. discriminate.
Qed.

End Bounds.

(** The scenario: the uptime of the day window. *)
Lemma uptime_never_negative_witness :
  max_timestamp (store_status scenario_db) = Some (monday 17 0)
  /\ (0 <= fst (calculate_uptime_downtime small_tzdata "S" scenario_db
                  (Some (monday 17 0)) "day"))%Q.
Proof.
  split; [reflexivity |].
  exact (uptime_never_negative small_tzdata "S" scenario_db (monday 17 0) "day" eq_refl).
Defined.

Section Floors.

Variable tzdata : string -> option (datetime -> Z).

Lemma window_minutes_some_period (store_id : string) (db : Session)
  (MAX_TIMESTAMP : option datetime) (time_period : string) (u d : Q) :
  window_minutes tzdata store_id db MAX_TIMESTAMP time_period = Ok (Some (u, d)) ->
  exists now delta,
    MAX_TIMESTAMP = Some now /\ period_delta time_period = Some delta.
Proof.
  unfold window_minutes.
  destruct (query_status db store_id) as [[| r records] | e]; cbn [bind];
    try discriminate.
  destruct (business_hours_records tzdata store_id db (r :: records));
    [discriminate |].
  destruct (period_delta time_period) as [delta |]; [| discriminate].
  destruct MAX_TIMESTAMP as [now |]; [| discriminate].
  intros _. exists now, delta. split; reflexivity.
Qed.

(** X7. For a store without any schedule row, with the schedule provider
    up and the reference instant the largest timestamp of the data set, a
    window that retains at least one of the fetched samples is computed to
    its end and shows, before unit conversion, at least 1379 minutes of
    downtime, and at least 1439 minutes in the day and week windows: about a
    day of downtime even for a store polled active all along.  (In exact
    arithmetic the floors are 1380 and 1440; a minute is left for the
    rounding of the sums.) *)
Theorem unscheduled_downtime_floor (store_id : string) (db : Session)
  (now delta : datetime) (time_period : string) (records : list StoreStatus.t) :
  unscheduled db store_id ->
  hours_up db = true ->
  max_timestamp (store_status db) = Some now ->
  query_status db store_id = Ok records ->
  period_delta time_period = Some delta ->
  period_records (now - delta) (business_hours_records tzdata store_id db records)
  <> [] ->
  exists u d,
    window_minutes tzdata store_id db (Some now) time_period = Ok (Some (u, d))
    /\ (1379 <= d)%Q
    /\ (time_period <> "hour" -> (1439 <= d)%Q).
Proof.
  intros Hnone Hup Hmax Hquery Hdelta Hretained.
  destruct (unscheduled_business_minutes db store_id now Hnone Hup)
    as (Hday & Hweek & Hhour).
  assert (Hbm : exists bm,
             business_minutes_while db store_id (date_of (now - delta)) (date_of now) 0
             = Ok bm).
  { destruct (period_delta_cases _ _ Hdelta) as [[_ ->] | [[_ ->] | [_ ->]]].
    - destruct Hhour as [H | H]; eexists; exact H.
    - eexists; exact Hday.
    - eexists; exact Hweek. }
  destruct Hbm as (bm & Hbm).
  destruct (uptime_loop_returns
              (period_records (now - delta)
                 (business_hours_records tzdata store_id db records)) now)
    as (u & Hloop & _).
  assert (Hwin : window_minutes tzdata store_id db (Some now) time_period
                 = Ok (Some (u, (inject_Z bm - u)%Q))).
  { rewrite (window_minutes_unfold tzdata store_id db now delta time_period records
               Hquery Hdelta).
    destruct (period_records (now - delta)
                (business_hours_records tzdata store_id db records)) as [| r rs];
      [contradiction Hretained; reflexivity |].
    rewrite Hbm. cbn [bind]. rewrite Hloop. reflexivity. }
  exists u, (inject_Z bm - u)%Q. split; [exact Hwin |].
  pose proof (window_uptime_bounds tzdata store_id db now delta time_period u _
                Hmax Hdelta Hwin) as Hu.
  destruct (period_delta_cases _ _ Hdelta) as [[-> ->] | [[-> ->] | [-> ->]]].
  - change (inject_Z (timedelta_hours 1)) with (3600000000 # 1)%Q in Hu.
    split; [| intros Hne; contradiction Hne; reflexivity].
    destruct Hhour as [Hhour | Hhour]; rewrite Hhour in Hbm;
      injection Hbm as <-.
    + change (inject_Z 1440) with 1440%Q. lra.
    + change (inject_Z 2880) with 2880%Q. lra.
  - change (inject_Z (timedelta_days 1)) with (86400000000 # 1)%Q in Hu.
    rewrite Hday in Hbm. injection Hbm as <-.
    change (inject_Z 2880) with 2880%Q. split; [| intros _]; lra.
  - change (inject_Z (timedelta_weeks 1)) with (604800000000 # 1)%Q in Hu.
    rewrite Hweek in Hbm. injection Hbm as <-.
    change (inject_Z 11520) with 11520%Q. split; [| intros _]; lra.
Qed.

Lemma day_minutes_raises (db : Session) (store_id : string) (d : date) (e : exn) :
  schedule_entry db store_id (weekday d) = Raise e ->
  day_minutes db store_id d = Raise e.
Proof.
  unfold schedule_entry, day_minutes.
  destruct (query_hours db store_id (weekday d)) as [[h |] | e']; cbn [bind];
    [| discriminate | intros H; injection H as ->; reflexivity].
  destruct (strptime_HM (StoreHours.start_time_local h)) as [s | e']; cbn [bind];
    [| intros H; injection H as ->; reflexivity].
  destruct (strptime_HM (StoreHours.end_time_local h)) as [t | e']; cbn [bind];
    [discriminate | intros H; injection H as ->; reflexivity].
Qed.

Lemma business_minutes_while_raises (db : Session) (store_id : string)
  (last bad : date) (e : exn) (n : nat) :
  day_minutes db store_id bad = Raise e ->
  forall (current_date : date) (total : Z),
    Z.to_nat (last - current_date + 1) = n ->
    current_date <= bad <= last ->
    exists e', business_minutes_while db store_id current_date last total = Raise e'.
Proof.
  intros Hbad.
  induction n as [| k IH]; intros current_date total Hn Hrange;
    rewrite business_minutes_while_equation_1;
    destruct (Z_le_gt_dec current_date last) as [Hle | Hgt]; try lia.
  destruct (day_minutes db store_id current_date) as [m | e'] eqn:Hday.
  - apply IH; [lia |].
    assert (current_date <> bad) by (intros ->; rewrite Hbad in Hday; discriminate).
    lia.
  - exists e'. reflexivity.
Qed.

Lemma weekday_in_week (last w : Z) :
  0 <= w <= 6 -> exists d, last - 7 <= d <= last /\ weekday d = w.
Proof.
  intros Hw. exists (last - (last + 6 - w) mod 7).
  pose proof (Z.mod_pos_bound (last + 6 - w) 7 ltac:(lia)) as Hr.
  split; [lia |].
  unfold weekday.
  pose proof (Z.div_mod (last + 6 - w) 7 ltac:(lia)) as Hdm.
  replace (last - (last + 6 - w) mod 7 + 6) with (w + (last + 6 - w) / 7 * 7) by lia.
  rewrite Z.mod_add by lia. apply Z.mod_small. lia.
Qed.

(** X8. A schedule row that cannot be read zeroes the windows that touch
    its weekday, although [is_store_open] counts every instant of that
    weekday as open: when the entry of a date between the window start and
    the reference instant raises, the window is reported as (0, 0), whatever
    the samples.  The week window touches every weekday, so one such row of
    a store zeroes its week window.  An instant whose local weekday has such
    an entry counts as open. *)
Theorem unreadable_schedule_zeroes_window (store_id : string) (db : Session)
  (now : datetime) (e : exn) :
  (forall (time_period : string) (delta : Z) (d : date),
      period_delta time_period = Some delta ->
      date_of (now - delta) <= d <= date_of now ->
      schedule_entry db store_id (weekday d) = Raise e ->
      calculate_uptime_downtime tzdata store_id db (Some now) time_period = (0%Q, 0%Q))
  /\ (forall w : Z,
        0 <= w <= 6 ->
        schedule_entry db store_id w = Raise e ->
        calculate_uptime_downtime tzdata store_id db (Some now) "week" = (0%Q, 0%Q))
  /\ (forall (timestamp_utc : datetime) (local_tz : datetime -> Z),
        resolved_zone tzdata db store_id = Ok local_tz ->
        schedule_entry db store_id
          (weekday (date_of (astimezone timestamp_utc local_tz))) = Raise e ->
        is_store_open tzdata store_id timestamp_utc db = true).
Proof.
  assert (Hgen : forall time_period delta d,
             period_delta time_period = Some delta ->
             date_of (now - delta) <= d <= date_of now ->
             schedule_entry db store_id (weekday d) = Raise e ->
             calculate_uptime_downtime tzdata store_id db (Some now) time_period
             = (0%Q, 0%Q)).
  { intros time_period delta d Hdelta Hrange Hbad.
    rewrite calculate_of_window_minutes.
    destruct (window_minutes tzdata store_id db (Some now) time_period)
      as [[[u dt] |] | e'] eqn:Hwin; try reflexivity.
    destruct (window_minutes_inv tzdata store_id db now delta time_period u dt
                Hdelta Hwin) as (records & bm & _ & Hbm & _).
    destruct (business_minutes_while_raises db store_id (date_of now) d e
                (Z.to_nat (date_of now - date_of (now - delta) + 1))
                (day_minutes_raises db store_id d e Hbad)
                (date_of (now - delta)) 0 eq_refl Hrange) as (e' & Hraise).
    rewrite Hraise in Hbm. discriminate. }
  split; [exact Hgen | split].
  - intros w Hw Hbad.
    destruct (weekday_in_week (date_of now) w Hw) as (d & Hd & Hwd).
    apply (Hgen "week" (timedelta_weeks 1) d eq_refl).
    + rewrite (proj2 (window_dates_eq now)). exact Hd.
    + rewrite Hwd. exact Hbad.
  - intros timestamp_utc local_tz Hzone Hbad. unfold is_store_open.
    rewrite (is_store_open_body_resolved tzdata db store_id timestamp_utc local_tz Hzone).
    rewrite Hbad. reflexivity.
Qed.

(** X9. A period other than 'hour', 'day' and 'week' is answered (0, 0),
    and so is every period as long as no data was imported
    ([MAX_TIMESTAMP] is [None]), whatever the tables hold. *)
Theorem no_window_gives_zero (store_id : string) (db : Session)
  (MAX_TIMESTAMP : option datetime) (time_period : string) :
  (period_delta time_period = None ->
   calculate_uptime_downtime tzdata store_id db MAX_TIMESTAMP time_period = (0%Q, 0%Q))
  /\ calculate_uptime_downtime tzdata store_id db None time_period = (0%Q, 0%Q).
Proof.
  split.
  - intros Hnone. rewrite calculate_of_window_minutes.
    destruct (window_minutes tzdata store_id db MAX_TIMESTAMP time_period)
      as [[[u d] |] | e] eqn:Hwin; try reflexivity.
    destruct (window_minutes_some_period _ _ _ _ _ _ Hwin) as (now & delta & _ & Hd).
    rewrite Hnone in Hd. discriminate.
  - rewrite calculate_of_window_minutes.
    destruct (window_minutes tzdata store_id db None time_period)
      as [[[u d] |] | e] eqn:Hwin; try reflexivity.
    destruct (window_minutes_some_period _ _ _ _ _ _ Hwin) as (now & delta & Hm & _).
    discriminate.
Qed.

End Floors.

(** Store Q of the quiet data set in the day window: polled active once,
    eight hours before the reference instant, it shows 40 hours of
    downtime. *)
Lemma unscheduled_downtime_floor_witness :
  unscheduled quiet_db "Q"
  /\ hours_up quiet_db = true
  /\ max_timestamp (store_status quiet_db) = Some (monday 17 0)
  /\ query_status quiet_db "Q" = Ok [StoreStatus.mk "Q" (monday 9 0) "active"]
  /\ period_delta "day" = Some (timedelta_days 1)
  /\ period_records (monday 17 0 - timedelta_days 1)
       (business_hours_records small_tzdata "Q" quiet_db
          [StoreStatus.mk "Q" (monday 9 0) "active"]) <> []
  /\ exists u d,
       window_minutes small_tzdata "Q" quiet_db (Some (monday 17 0)) "day"
       = Ok (Some (u, d))
       /\ (1439 <= d)%Q.
Proof.
  assert (Hnone : unscheduled quiet_db "Q") by (intros h []).
  assert (Hretained :
    period_records (monday 17 0 - timedelta_days 1)
      (business_hours_records small_tzdata "Q" quiet_db
         [StoreStatus.mk "Q" (monday 9 0) "active"]) <> [])
    by (vm_compute; discriminate).
  split; [exact Hnone |].
  split; [reflexivity |].
  split; [reflexivity |].
  split; [reflexivity |].
  split; [reflexivity |].
  split; [exact Hretained |].
  destruct (unscheduled_downtime_floor small_tzdata "Q" quiet_db (monday 17 0)
              (timedelta_days 1) "day" [StoreStatus.mk "Q" (monday 9 0) "active"]
              Hnone eq_refl eq_refl eq_refl eq_refl Hretained)
    as (u & d & Hwin & _ & Hday).
  exists u, d. split; [exact Hwin |].
  apply Hday. discriminate.
Defined.

(** The store whose Monday closing time is written with seconds: every
    Monday instant counts as open, and the hour window of a Monday evening
    is reported as (0, 0). *)
Lemma unreadable_schedule_zeroes_window_witness :
  period_delta "hour" = Some (timedelta_hours 1)
  /\ schedule_entry malformed_hours_db "M" (weekday (date_of (monday 20 0)))
     = Raise ValueError
  /\ is_store_open small_tzdata "M" (monday 20 0) malformed_hours_db = true
  /\ calculate_uptime_downtime small_tzdata "M" malformed_hours_db
       (Some (monday 20 0)) "hour" = (0%Q, 0%Q).
Proof.
  destruct (unreadable_schedule_zeroes_window small_tzdata "M" malformed_hours_db
              (monday 20 0) ValueError) as (Hwindow & _ & Hopen).
  split; [reflexivity |].
  split; [reflexivity |].
  split; [exact (Hopen (monday 20 0) (fun _ => 0) eq_refl eq_refl) |].
  apply (Hwindow "hour" (timedelta_hours 1) (date_of (monday 20 0)) eq_refl).
  - vm_compute. split; discriminate.
  - reflexivity.
Defined.

Lemma no_window_gives_zero_witness :
  period_delta "month" = None
  /\ calculate_uptime_downtime small_tzdata "S" scenario_db scenario_now "month"
     = (0%Q, 0%Q).
Proof.
  split; [reflexivity |].
  apply (proj1 (no_window_gives_zero small_tzdata "S" scenario_db scenario_now "month")).
  reflexivity.
Defined.

(** ** The report and the data set *)

Lemma In_distinct (x : string) (l : list string) : In x (distinct l) <-> In x l.
Proof.
  induction l as [| y l IH]; cbn [distinct In]; [reflexivity |].
  rewrite filter_In, IH, negb_true_iff.
  destruct (String.eqb_spec x y) as [-> | Hne].
  - split; intros _; left; reflexivity.
  - split.
    + intros [Heq | [Hin _]]; [left; exact Heq | right; exact Hin].
    + intros [Heq | Hin]; [left; exact Heq | right; split; [exact Hin | reflexivity]].
Qed.

Lemma NoDup_distinct (l : list string) : NoDup (distinct l).
Proof.
  induction l as [| y l IH]; cbn [distinct]; constructor.
  - rewrite filter_In. intros [_ Hne]. rewrite String.eqb_refl in Hne. discriminate.
  - apply NoDup_filter. exact IH.
Qed.

Lemma row_store_id_report_row (tzdata : string -> option (datetime -> Z))
  (db : Session) (MAX_TIMESTAMP : option datetime) (store_id : string) :
  row_store_id (report_row tzdata db MAX_TIMESTAMP store_id) = store_id.
Proof.
  unfold report_row.
  destruct (calculate_uptime_downtime tzdata store_id db MAX_TIMESTAMP "hour"),
    (calculate_uptime_downtime tzdata store_id db MAX_TIMESTAMP "day"),
    (calculate_uptime_downtime tzdata store_id db MAX_TIMESTAMP "week").
  reflexivity.
Qed.

(** X10. When the store ids can be listed, the report holds exactly one
    row for each store that has at least one status row, and no row for any
    other store: a store known only to the schedule or time zone table is
    absent from the report.  Each row is the one computed for its store. *)
Theorem generate_report_rows (tzdata : string -> option (datetime -> Z))
  (db : Session) (MAX_TIMESTAMP : option datetime) :
  status_up db = true ->
  exists rows,
    generate_report tzdata db MAX_TIMESTAMP = Complete rows
    /\ NoDup (map row_store_id rows)
    /\ (forall s, In s (map row_store_id rows)
                  <-> exists r, In r (store_status db) /\ StoreStatus.store_id r = s)
    /\ (forall row, In row rows ->
                    row = report_row tzdata db MAX_TIMESTAMP (row_store_id row)).
Proof.
  intros Hup.
  exists (map (report_row tzdata db MAX_TIMESTAMP)
            (distinct (map StoreStatus.store_id (store_status db)))).
  assert (Hids : map row_store_id
                   (map (report_row tzdata db MAX_TIMESTAMP)
                      (distinct (map StoreStatus.store_id (store_status db))))
                 = distinct (map StoreStatus.store_id (store_status db))).
  { rewrite map_map. rewrite <- (map_id (distinct _)) at 2.
    apply map_ext. intros s. apply row_store_id_report_row. }
  split; [| split; [| split]].
  - unfold generate_report, generate_report_body, query_store_ids.
    rewrite Hup. reflexivity.
  - rewrite Hids. apply NoDup_distinct.
  - intros s. rewrite Hids, In_distinct, in_map_iff.
    split; intros (r & H1 & H2); exists r; split; assumption.
  - intros row Hrow. apply in_map_iff in Hrow. destruct Hrow as (s & <- & _).
    rewrite row_store_id_report_row. reflexivity.
Qed.

(** The overnight data set has a schedule and a time zone row for store O
    but no status row: its report is empty. *)
Lemma generate_report_rows_witness :
  status_up overnight_db = true
  /\ In "O" (map StoreHours.store_id (store_hours overnight_db))
  /\ exists rows,
       generate_report small_tzdata overnight_db None = Complete rows
       /\ ~ In "O" (map row_store_id rows).
Proof.
  split; [reflexivity |].
  split; [left; reflexivity |].
  destruct (generate_report_rows small_tzdata overnight_db None eq_refl)
    as (rows & Hreport & _ & Hstores & _).
  exists rows. split; [exact Hreport |].
  intros Hin. apply Hstores in Hin. destruct Hin as (r & [] & _).
Defined.

Lemma max_timestamp_attained (rows : list StoreStatus.t) :
  forall (acc : option datetime) (m : datetime),
    fold_left
      (fun acc r =>
         match acc with
         | None => Some (StoreStatus.timestamp_utc r)
         | Some m => if StoreStatus.timestamp_utc r >? m
                     then Some (StoreStatus.timestamp_utc r) else Some m
         end) rows acc = Some m ->
    acc = Some m \/ exists r, In r rows /\ StoreStatus.timestamp_utc r = m.
Proof.
  induction rows as [| x rows IH]; intros acc m; cbn [fold_left].
  - intros ->. left. reflexivity.
  - intros Hfold. destruct (IH _ m Hfold) as [Hacc | (r & Hr & Hm)].
    + destruct acc as [a |].
      * destruct (StoreStatus.timestamp_utc x >? a).
        -- right. exists x. split; [left; reflexivity |]. congruence.
        -- left. exact Hacc.
      * right. exists x. split; [left; reflexivity |]. congruence.
    + right. exists r. split; [right; exact Hr | exact Hm].
Qed.

Lemma max_timestamp_cons (x : StoreStatus.t) (rows : list StoreStatus.t) :
  max_timestamp (x :: rows) <> None.
Proof.
  unfold max_timestamp. cbn [fold_left].
  generalize (StoreStatus.timestamp_utc x). clear x.
  induction rows as [| y rows IH]; intros a; cbn [fold_left]; [discriminate |].
  destruct (StoreStatus.timestamp_utc y >? a); apply IH.
Qed.

(** X11. The reference instant that the import loop of [main_simple.py]
    computes is [None] exactly when no status row was stored; otherwise it
    is the timestamp of one of the stored rows, and no stored row is
    later. *)
Theorem max_timestamp_is_latest (rows : list StoreStatus.t) :
  (max_timestamp rows = None <-> rows = [])
  /\ (forall now, max_timestamp rows = Some now ->
        (exists r, In r rows /\ StoreStatus.timestamp_utc r = now)
        /\ (forall r, In r rows -> StoreStatus.timestamp_utc r <= now)).
Proof.
  split.
  - split.
    + destruct rows as [| x rows]; [reflexivity |].
      intros H. destruct (max_timestamp_cons x rows H).
    + intros ->. reflexivity.
  - intros now Hmax. split.
    + destruct (max_timestamp_attained rows None now Hmax) as [Hnone | Hex];
        [discriminate | exact Hex].
    + intros r Hr. exact (max_timestamp_bound rows now r Hmax Hr).
Qed.

Lemma max_timestamp_is_latest_witness :
  max_timestamp (store_status scenario_db) = Some (monday 17 0)
  /\ (exists r, In r (store_status scenario_db)
                /\ StoreStatus.timestamp_utc r = monday 17 0)
  /\ StoreStatus.timestamp_utc (StoreStatus.mk "S" (monday 9 0) "active") <= monday 17 0.
Proof.
  destruct (proj2 (max_timestamp_is_latest (store_status scenario_db))
              (monday 17 0) eq_refl) as [Hattained Hbound].
  split; [reflexivity |].
  split; [exact Hattained |].
  apply Hbound. left. reflexivity.
Defined.

Lemma business_minutes_while_same_hours (db db' : Session) (store_id : string)
  (last : date) (n : nat) :
  store_hours db = store_hours db' -> hours_up db = hours_up db' ->
  forall (current_date : date) (total : Z),
    Z.to_nat (last - current_date + 1) = n ->
    business_minutes_while db store_id current_date last total
    = business_minutes_while db' store_id current_date last total.
Proof.
  intros Hhours Hup.
  assert (Hday : forall d, day_minutes db store_id d = day_minutes db' store_id d)
    by (intros d; unfold day_minutes, query_hours; rewrite Hhours, Hup; reflexivity).
  induction n as [| k IH]; intros current_date total Hn;
    rewrite (business_minutes_while_equation_1 db),
            (business_minutes_while_equation_1 db');
    destruct (Z_le_gt_dec current_date last) as [Hle | Hgt]; try reflexivity; try lia.
  rewrite Hday. destruct (day_minutes db' store_id current_date) as [m | e];
    [| reflexivity].
  apply IH. lia.
Qed.

(** X12. The figures of a store depend on the rest of the data set through
    the reference instant only: two data sets with the same status rows for
    the store, the same schedule and time zone tables and the same providers
    give the store the same pair for every window and the same row, given
    the same reference instant.  The reference instant does carry the
    dependency: in the scenario, a later poll of the other store empties the
    hour window of S. *)
Theorem store_depends_on_others_through_now_only :
  (forall (tzdata : string -> option (datetime -> Z)) (store_id : string)
          (db db' : Session) (MAX_TIMESTAMP : option datetime),
      same_for_store store_id db db' ->
      (forall time_period,
          calculate_uptime_downtime tzdata store_id db MAX_TIMESTAMP time_period
          = calculate_uptime_downtime tzdata store_id db' MAX_TIMESTAMP time_period)
      /\ report_row tzdata db MAX_TIMESTAMP store_id
         = report_row tzdata db' MAX_TIMESTAMP store_id)
  /\ (same_for_store "S" scenario_db scenario_later_db
      /\ pair_eq (calculate_uptime_downtime small_tzdata "S" scenario_db
                    (max_timestamp (store_status scenario_db)) "hour") (0, 480)%Q
      /\ calculate_uptime_downtime small_tzdata "S" scenario_later_db
           (max_timestamp (store_status scenario_later_db)) "hour" = (0%Q, 0%Q)).
Proof.
  split.
  - intros tzdata store_id db db' MAX_TIMESTAMP
           (Hstatus & Hhours & Hzones & Hsup & Hhup & Hzup).
    assert (Hcalc : forall time_period,
      calculate_uptime_downtime tzdata store_id db MAX_TIMESTAMP time_period
      = calculate_uptime_downtime tzdata store_id db' MAX_TIMESTAMP time_period).
    { intros time_period.
      assert (Hopen : forall t, is_store_open tzdata store_id t db
                                = is_store_open tzdata store_id t db').
      { intros t. unfold is_store_open, is_store_open_body, query_timezone, query_hours.
        rewrite Hhours, Hzones, Hhup, Hzup. reflexivity. }
      assert (Hquery : query_status db store_id = query_status db' store_id)
        by (unfold query_status; rewrite Hstatus, Hsup; reflexivity).
      unfold calculate_uptime_downtime, calculate_uptime_downtime_body, window_minutes.
      rewrite Hquery.
      destruct (query_status db' store_id) as [[| r records] | e]; cbn [bind];
        try reflexivity.
      assert (Hbh : business_hours_records tzdata store_id db (r :: records)
                    = business_hours_records tzdata store_id db' (r :: records))
        by (unfold business_hours_records; apply filter_ext; intros a; apply Hopen).
      rewrite Hbh.
      destruct (business_hours_records tzdata store_id db' (r :: records));
        [reflexivity |].
      destruct (period_delta time_period) as [delta |]; [| reflexivity].
      destruct MAX_TIMESTAMP as [now |]; [| reflexivity].
      destruct (period_records (now - delta) (t :: l)); [reflexivity |].
      rewrite (business_minutes_while_same_hours db db' store_id (date_of now)
                 (Z.to_nat (date_of now - date_of (now - delta) + 1))
                 Hhours Hhup _ 0 eq_refl).
      reflexivity. }
    split; [exact Hcalc |].
    unfold report_row. rewrite !Hcalc. reflexivity.
  - split; [repeat split |].
    split; [split; vm_compute; reflexivity | vm_compute; reflexivity].
Qed.

Lemma store_depends_on_others_through_now_only_witness :
  same_for_store "S" scenario_db scenario_later_db
  /\ report_row small_tzdata scenario_db (Some (monday 17 0)) "S"
     = report_row small_tzdata scenario_later_db (Some (monday 17 0)) "S".
Proof.
  assert (Hsame : same_for_store "S" scenario_db scenario_later_db) by (repeat split).
  split; [exact Hsame |].
  exact (proj2 (proj1 store_depends_on_others_through_now_only small_tzdata "S"
                  scenario_db scenario_later_db (Some (monday 17 0)) Hsame)).
Defined.

(** ** The report service *)



(** X13. [get_report] never answers 404: its handler turns every
    [HTTPException] raised in the [try] block into a 500 with the detail
    'Failed to get report'.  This is the answer for an identifier that no
    report has, and for a complete report whose file is not on disk. *)
Theorem get_report_errors_are_500 (app : App) (report_id : string) :
  (forall status_code detail,
      get_report app report_id = HTTPException status_code detail ->
      status_code = 500 /\ detail = "Failed to get report")
  /\ (query_report app report_id = None ->
      get_report_body app report_id = HTTPException 404 "Report not found"
      /\ get_report app report_id = HTTPException 500 "Failed to get report")
  /\ (forall report path,
        query_report app report_id = Some report ->
        Report.status report = "Complete" ->
        Report.csv_file_path report = Some path ->
        path_exists app path = false ->
        get_report app report_id = HTTPException 500 "Failed to get report").
Proof.
  split; [| split].
  - intros status_code detail. unfold get_report.
    destruct (get_report_body app report_id); [discriminate |].
    intros H. injection H as <- <-. split; reflexivity.
  - intros Hnone. unfold get_report, get_report_body. rewrite Hnone.
    split; reflexivity.
  - intros report path Hquery Hstatus Hpath Hmissing.
    unfold get_report, get_report_body.
    rewrite Hquery, Hstatus, Hpath, Hmissing, andb_false_r. reflexivity.
Qed.

Lemma get_report_errors_are_500_witness :
  query_report scenario_app "no-such-report" = None
  /\ get_report scenario_app "no-such-report"
     = HTTPException 500 "Failed to get report".
Proof.
  split; [reflexivity |].
  apply (get_report_errors_are_500 scenario_app "no-such-report"). reflexivity.
Defined.



(** X15. When the reference instant is the largest timestamp of the data
    set, the downtime reported for a window never exceeds the minutes of the
    dates the window can touch: 2880 minutes for the hour window, 48 hours
    for the day window and 192 hours for the week window; for any other
    period it is 0. *)
Theorem downtime_at_most_touched_dates (tzdata : string -> option (datetime -> Z))
  (store_id : string) (db : Session) (now : datetime) (time_period : string) :
  max_timestamp (store_status db) = Some now ->
  (snd (calculate_uptime_downtime tzdata store_id db (Some now) time_period)
   <= downtime_cap time_period)%Q.
Proof.
  intros Hmax.
  rewrite calculate_of_window_minutes.
  assert (Hzero : (0 <= downtime_cap time_period)%Q).
  { unfold downtime_cap.
    destruct (String.eqb time_period "hour"); [lra |].
    destruct (String.eqb time_period "day"); [lra |].
    destruct (String.eqb time_period "week"); lra. }
  destruct (window_minutes tzdata store_id db (Some now) time_period)
    as [[[u d] |] | e] eqn:Hwin; cbn [snd]; try exact Hzero.
  destruct (window_minutes_some_period _ _ _ _ _ _ _ Hwin) as (now' & delta & _ & Hdelta).
  pose proof (window_uptime_bounds tzdata store_id db now delta time_period u d
                Hmax Hdelta Hwin) as Hu.
  destruct (window_minutes_inv tzdata store_id db now delta time_period u d Hdelta Hwin)
    as (records & bm & _ & Hbm & _ & ->).
  assert (Hdates : date_of (now - delta) <= date_of now + 1).
  { assert (date_of (now - delta) <= date_of now); [| lia].
    apply date_of_mono. pose proof (period_delta_pos _ _ Hdelta). lia. }
  pose proof (business_minutes_while_bounds db store_id (date_of now)
                (Z.to_nat (date_of now - date_of (now - delta) + 1))
                (date_of (now - delta)) 0 bm eq_refl Hdates Hbm) as Hrange.
  destruct (period_delta_cases _ _ Hdelta) as [[-> ->] | [[-> ->] | [-> ->]]].
  - pose proof (date_of_minus_hour now) as Hhour.
    assert (Hhi : bm <= 2880) by lia.
    rewrite Zle_Qle in Hhi. change (inject_Z 2880) with 2880%Q in Hhi.
    change (convert_units "hour" u (inject_Z bm - u)) with (u, (inject_Z bm - u)%Q).
    change (downtime_cap "hour") with 2880%Q.
    cbn [snd]. lra.
  - rewrite (proj1 (window_dates_eq now)) in Hrange.
    assert (Hhi : bm <= 2880) by lia.
    rewrite Zle_Qle in Hhi. change (inject_Z 2880) with 2880%Q in Hhi.
    change (convert_units "day" u (inject_Z bm - u))
      with ((u / 60)%Q, ((inject_Z bm - u) / 60)%Q).
    change (downtime_cap "day") with 48%Q.
    cbn [snd]. unfold Qdiv. change (/ 60)%Q with (1 # 60)%Q. lra.
  - rewrite (proj2 (window_dates_eq now)) in Hrange.
    assert (Hhi : bm <= 11520) by lia.
    rewrite Zle_Qle in Hhi. change (inject_Z 11520) with 11520%Q in Hhi.
    change (convert_units "week" u (inject_Z bm - u))
      with ((u / 60)%Q, ((inject_Z bm - u) / 60)%Q).
    change (downtime_cap "week") with 192%Q.
    cbn [snd]. unfold Qdiv. change (/ 60)%Q with (1 # 60)%Q. lra.
Qed.

(** The other store of the scenario, polled at the reference instant
    only: 1440 minutes of downtime in the hour window. *)
Lemma downtime_at_most_touched_dates_witness :
  max_timestamp (store_status scenario_db) = Some (monday 17 0)
  /\ (snd (calculate_uptime_downtime small_tzdata "T" scenario_db
             (Some (monday 17 0)) "hour") == 1440)%Q
  /\ (snd (calculate_uptime_downtime small_tzdata "T" scenario_db
             (Some (monday 17 0)) "hour") <= 2880)%Q.
Proof.
  split; [reflexivity |].
  split; [vm_compute; reflexivity |].
  exact (downtime_at_most_touched_dates small_tzdata "T" scenario_db (monday 17 0)
           "hour" eq_refl).
Defined.
